(** * Landing Throttle Manager: the landing state machine of [Main.cpp]

    A shallow embedding of the X-Plane plugin's control core: the flight-loop
    callback [StateMachine], the activation routine [Enable] and the two host
    entry points [EnableCmdHandler] and [MenuHandlerCallback], over

    - the plugin's two globals ([CurrentState], [DeactivationRequested]),
    - the simulator's two held commands (throttle down, reverse thrust),
    - the data references the plugin polls, as IEEE-754 binary32 values.

    [Diagnostic_printf] only appends to Log.txt and never feeds back into the
    control flow; its calls are left out. *)

From Stdlib Require Import ZArith List String Bool Lia.
From Stdlib Require Import Floats.SpecFloat.
Import ListNotations.

(* ================================================================== *)
(** * C [float]: IEEE-754 binary32 *)

Module F32.

(** A C [float] is a binary32 number: 24 bits of precision, infinities at
    exponent 128.  [spec_float] has a single NaN, which is all the
    comparisons of the plugin can observe. *)
Definition float := spec_float.

Definition prec : Z := 24.
Definition emax : Z := 128.

Definition valid (x : float) : bool := valid_binary prec emax x.

Definition is_nan (x : float) : bool :=
  match x with S754_nan => true | _ => false end.

(** The relational operators of C on [float] operands.  Every ordered
    comparison with a NaN is false, and [!=] with a NaN is true. *)
Definition le (a b : float) : bool := SFleb a b.
Definition lt (a b : float) : bool := SFltb a b.
Definition ge (a b : float) : bool := SFleb b a.
Definition gt (a b : float) : bool := SFltb b a.
Definition eq (a b : float) : bool := SFeqb a b.
Definition ne (a b : float) : bool := negb (SFeqb a b).

(** The [int] literal [0] converted to [float] by the usual arithmetic
    conversions ([ThrottleRatio > 0], [ThrottleRatio == 0]). *)
Definition of_int_0 : float := S754_zero false.

(** The value of a finite float [(-1)^s * m * 2^e], scaled by a power of
    two to make it an integer: [scaled k x] is [x * 2^k] provided
    [k + e >= 0]. *)
Definition scaled (k : Z) (x : float) : Z :=
  match x with
  | S754_finite s m e => (if s then -1 else 1) * (Z.pos m * 2 ^ (k + e))
  | _ => 0
  end.

(** A zero or a finite number: neither a NaN nor an infinity. *)
Definition is_finite (x : float) : bool :=
  match x with S754_zero _ | S754_finite _ _ _ => true | _ => false end.

(** Every finite binary32 number is an integer multiple of 2^-149, the
    smallest subnormal; [ulps x] is that integer. *)
Definition ulps (x : float) : Z := scaled 149 x.

End F32.

Declare Scope f32_scope.
Delimit Scope f32_scope with f32.
Infix "<=" := F32.le : f32_scope.
Infix "<" := F32.lt : f32_scope.
Infix ">=" := F32.ge : f32_scope.
Infix ">" := F32.gt : f32_scope.
Infix "==" := F32.eq (at level 70, no associativity) : f32_scope.
Infix "!=" := F32.ne (at level 70, no associativity) : f32_scope.

(* ================================================================== *)
(** * Configuration section of [Main.cpp] *)

(** [#define MIN_SPEED_REVERSE_THRUST 60.0f]   (60 = 15 * 2^2, 24-bit
    mantissa 15 * 2^20) *)
Definition MIN_SPEED_REVERSE_THRUST : F32.float := S754_finite false 15728640 (-18).
(** [#define MAX_AIRSPEED 160.0f]   (160 = 5 * 2^5) *)
Definition MAX_AIRSPEED : F32.float := S754_finite false 10485760 (-16).
(** [#define MIN_FLAP_ANGLE 18.0f]   (18 = 9 * 2^1) *)
Definition MIN_FLAP_ANGLE : F32.float := S754_finite false 9437184 (-19).
(** [#define MAX_ALTITUDE 152.4f]: the binary32 number nearest to 152.4,
    which is 9987686 * 2^-16 = 152.399993896484375. *)
Definition MAX_ALTITUDE : F32.float := S754_finite false 9987686 (-16).
(** [#define STATE_MACHINE_EXECUTION_INTERVAL 0.25f] *)
Definition STATE_MACHINE_EXECUTION_INTERVAL : F32.float := S754_finite false 8388608 (-25).
(** [#define GEAR_DOWN_RATIO 1.0f] *)
Definition GEAR_DOWN_RATIO : F32.float := S754_finite false 8388608 (-23).

(** [#define MENU_ITEM_ID_ENABLE 1], [#define MENU_ITEM_ID_STOP 2] *)
Definition MENU_ITEM_ID_ENABLE : Z := 1.
Definition MENU_ITEM_ID_STOP : Z := 2.

(** Modelled from the spec: [TRUE] and [FALSE] are used by [Main.cpp] but
    defined by a platform header that is not part of the repository; they are
    the usual integer macros. *)
Definition TRUE : Z := 1.
Definition FALSE : Z := 0.

(** [bool] to [int] promotion and [int] to [bool] conversion of C++. *)
Definition int_of_bool (b : bool) : Z := if b then 1 else 0.
Definition bool_of_int (z : Z) : bool := negb (z =? 0)%Z.

(* ================================================================== *)
(** * The state machine's states *)

(** [typedef enum _states { ... } states_t;] *)
Inductive states_t : Type :=
| WAIT_FOR_USER
| START
| THROTTLE_DOWN
| WAIT_FOR_IDLE_THROTTLE
| WAIT_FOR_TOUCHDOWN
| APPLY_REVERSE
| WAIT_FOR_END_OF_REVERSE.

(** The enumerators' integer values, in declaration order. *)
Definition states_to_Z (s : states_t) : Z :=
  match s with
  | WAIT_FOR_USER => 0
  | START => 1
  | THROTTLE_DOWN => 2
  | WAIT_FOR_IDLE_THROTTLE => 3
  | WAIT_FOR_TOUCHDOWN => 4
  | APPLY_REVERSE => 5
  | WAIT_FOR_END_OF_REVERSE => 6
  end.

Definition states_eqb (a b : states_t) : bool :=
  (states_to_Z a =? states_to_Z b)%Z.

(* ================================================================== *)
(** * The simulator interface used by the plugin *)

(** The two commands found by [XPluginStart]. *)
Inductive XPLMCommandRef : Type :=
| ReverseThrustCmd    (* sim/engines/thrust_reverse_hold *)
| ThrottleDownCmd.    (* sim/engines/throttle_down *)

(** The six data references found by [XPluginStart]. *)
Inductive XPLMDataRef : Type :=
| ThrottleRatioRef         (* sim/cockpit2/engine/actuators/throttle_ratio_all *)
| IndicatedAirSpeedRef     (* sim/flightmodel/position/indicated_airspeed2 *)
| AllWheelsOnGroundRef     (* sim/flightmodel/failures/onground_all *)
| FlapsAngleRef            (* sim/flightmodel2/wing/flap1_deg *)
| GearDeployRatioRef       (* sim/flightmodel2/gear/deploy_ratio *)
| AltitudeAboveGroundRef.  (* sim/flightmodel2/position/y_agl *)

(** What the simulator reports at the instant of one callback.  The two
    array data references are read with offset 0 and count 1, so only their
    first element matters. *)
Record sensors : Type := mkSensors {
  throttle_ratio_all : F32.float;
  indicated_airspeed2 : F32.float;
  onground_all : Z;
  flap1_deg_0 : F32.float;
  deploy_ratio_0 : F32.float;
  y_agl : F32.float
}.

(** The calls into the simulator that one callback makes, in order. *)
Inductive event : Type :=
| EvGetData (r : XPLMDataRef)
| EvCommandBegin (c : XPLMCommandRef)
| EvCommandEnd (c : XPLMCommandRef)
| EvSpeak (text : string).

(** The plugin's globals together with the simulator's command holds.

    Modelled from the spec: the simulator's side of [XPLMCommandBegin] and
    [XPLMCommandEnd] is not part of the repository.  A command is a
    level-triggered hold: active from its begin until its end, and ending a
    hold that is not active changes nothing. *)
Record world : Type := mkWorld {
  CurrentState : states_t;
  DeactivationRequested : bool;
  throttle_down_held : bool;
  reverse_thrust_held : bool
}.

Definition held (c : XPLMCommandRef) (w : world) : bool :=
  match c with
  | ReverseThrustCmd => reverse_thrust_held w
  | ThrottleDownCmd => throttle_down_held w
  end.

Definition set_held (c : XPLMCommandRef) (b : bool) (w : world) : world :=
  match c with
  | ReverseThrustCmd =>
      mkWorld (CurrentState w) (DeactivationRequested w) (throttle_down_held w) b
  | ThrottleDownCmd =>
      mkWorld (CurrentState w) (DeactivationRequested w) b (reverse_thrust_held w)
  end.

(* ------------------------------------------------------------------ *)
(** ** A reader-state-writer monad for the callbacks

    A computation reads the sensors, updates the world and emits the
    simulator calls it makes. *)

Definition M (A : Type) : Type := sensors -> world -> A * world * list event.

Definition ret {A} (a : A) : M A := fun _ w => (a, w, []).

Definition bind {A B} (m : M A) (k : A -> M B) : M B :=
  fun env w =>
    let '(a, w1, l1) := m env w in
    let '(b, w2, l2) := k a env w1 in
    (b, w2, l1 ++ l2).

Declare Scope m_scope.
Delimit Scope m_scope with m.
Notation "x <- c1 ;; c2" := (bind c1 (fun x => c2))
  (at level 61, c1 at next level, right associativity) : m_scope.
Notation "c1 ;; c2" := (bind c1 (fun _ => c2))
  (at level 61, right associativity) : m_scope.
Open Scope m_scope.

Definition exec {A} (m : M A) (env : sensors) (w : world) : world :=
  snd (fst (m env w)).
Definition emitted {A} (m : M A) (env : sensors) (w : world) : list event :=
  snd (m env w).

(** Access to the globals. *)
Definition get_CurrentState : M states_t := fun _ w => (CurrentState w, w, []).
Definition set_CurrentState (s : states_t) : M unit :=
  fun _ w =>
    (tt, mkWorld s (DeactivationRequested w) (throttle_down_held w) (reverse_thrust_held w), []).
Definition get_DeactivationRequested : M bool :=
  fun _ w => (DeactivationRequested w, w, []).
Definition set_DeactivationRequested (z : Z) : M unit :=
  fun _ w =>
    (tt, mkWorld (CurrentState w) (bool_of_int z) (throttle_down_held w) (reverse_thrust_held w), []).

(** [XPLMGetDataf]: a float data reference; 0 for one of another type. *)
Definition XPLMGetDataf (r : XPLMDataRef) : M F32.float :=
  fun env w =>
    (match r with
     | ThrottleRatioRef => throttle_ratio_all env
     | IndicatedAirSpeedRef => indicated_airspeed2 env
     | AltitudeAboveGroundRef => y_agl env
     | _ => S754_zero false
     end, w, [EvGetData r]).

(** [XPLMGetDatai]: an integer data reference; 0 for one of another type. *)
Definition XPLMGetDatai (r : XPLMDataRef) : M Z :=
  fun env w =>
    (match r with
     | AllWheelsOnGroundRef => onground_all env
     | _ => 0%Z
     end, w, [EvGetData r]).

(** [XPLMGetDatavf(r, buf, 0, 1)] followed by reading [buf[0]]. *)
Definition XPLMGetDatavf_0 (r : XPLMDataRef) : M F32.float :=
  fun env w =>
    (match r with
     | FlapsAngleRef => flap1_deg_0 env
     | GearDeployRatioRef => deploy_ratio_0 env
     | _ => S754_zero false
     end, w, [EvGetData r]).

Definition XPLMCommandBegin (c : XPLMCommandRef) : M unit :=
  fun _ w => (tt, set_held c true w, [EvCommandBegin c]).

Definition XPLMCommandEnd (c : XPLMCommandRef) : M unit :=
  fun _ w => (tt, set_held c false w, [EvCommandEnd c]).

Definition XPLMSpeakString (text : string) : M unit :=
  fun _ w => (tt, w, [EvSpeak text]).

(** [strcat_s(dst, cap, src)] on a buffer that is large enough. *)
Definition strcat_s (dst : string) (cap : nat) (src : string) : string :=
  (dst ++ src)%string.

(* ================================================================== *)
(** * [StateMachine]: the flight-loop callback *)

Definition StateMachine : M F32.float :=
  st <- get_CurrentState ;;
  match st with
  | WAIT_FOR_USER => ret tt
  | START =>
      ThrottleRatio <- XPLMGetDataf ThrottleRatioRef ;;
      if (ThrottleRatio > F32.of_int_0)%f32
      then set_CurrentState THROTTLE_DOWN
      else set_CurrentState WAIT_FOR_TOUCHDOWN
  | THROTTLE_DOWN =>
      XPLMCommandBegin ThrottleDownCmd ;;
      set_CurrentState WAIT_FOR_IDLE_THROTTLE
  | WAIT_FOR_IDLE_THROTTLE =>
      d <- get_DeactivationRequested ;;
      if (int_of_bool d =? TRUE)%Z
      then
        XPLMCommandEnd ThrottleDownCmd ;;
        set_DeactivationRequested FALSE ;;
        set_CurrentState WAIT_FOR_USER
      else
        ThrottleRatio <- XPLMGetDataf ThrottleRatioRef ;;
        if (ThrottleRatio == F32.of_int_0)%f32
        then
          XPLMCommandEnd ThrottleDownCmd ;;
          set_CurrentState WAIT_FOR_TOUCHDOWN
        else ret tt
  | WAIT_FOR_TOUCHDOWN =>
      d <- get_DeactivationRequested ;;
      if (int_of_bool d =? TRUE)%Z
      then
        XPLMCommandEnd ReverseThrustCmd ;;
        set_DeactivationRequested FALSE ;;
        set_CurrentState WAIT_FOR_USER
      else
        AllWheelsOnGround <- XPLMGetDatai AllWheelsOnGroundRef ;;
        if (AllWheelsOnGround =? TRUE)%Z
        then set_CurrentState APPLY_REVERSE
        else ret tt
  | APPLY_REVERSE =>
      IndicatedAirSpeed <- XPLMGetDataf IndicatedAirSpeedRef ;;
      if (IndicatedAirSpeed > MIN_SPEED_REVERSE_THRUST)%f32
      then
        XPLMCommandBegin ReverseThrustCmd ;;
        set_CurrentState WAIT_FOR_END_OF_REVERSE
      else set_CurrentState WAIT_FOR_USER
  | WAIT_FOR_END_OF_REVERSE =>
      d <- get_DeactivationRequested ;;
      if (int_of_bool d =? TRUE)%Z
      then
        XPLMCommandEnd ReverseThrustCmd ;;
        set_DeactivationRequested FALSE ;;
        set_CurrentState WAIT_FOR_USER
      else
        IndicatedAirSpeed <- XPLMGetDataf IndicatedAirSpeedRef ;;
        if (IndicatedAirSpeed <= MIN_SPEED_REVERSE_THRUST)%f32
        then
          XPLMCommandEnd ReverseThrustCmd ;;
          set_CurrentState WAIT_FOR_USER
        else ret tt
  end ;;
  ret STATE_MACHINE_EXECUTION_INTERVAL.

(* ================================================================== *)
(** * [Enable]: the activation request *)

(** The condition of the [if] that arms the manager. *)
Definition conditions_met (IndicatedAirSpeed FlapAngle GearDeployRatio AltitudeAboveGround : F32.float) : bool :=
  (IndicatedAirSpeed <= MAX_AIRSPEED)%f32
  && (FlapAngle >= MIN_FLAP_ANGLE)%f32
  && (GearDeployRatio == GEAR_DOWN_RATIO)%f32
  && (AltitudeAboveGround <= MAX_ALTITUDE)%f32.

(** The text assembled in [char Errors[256]] by the four [strcat_s]. *)
Definition Errors_text (IndicatedAirSpeed FlapAngle GearDeployRatio AltitudeAboveGround : F32.float) : string :=
  let Errors := EmptyString in
  let Errors :=
    if (IndicatedAirSpeed > MAX_AIRSPEED)%f32
    then strcat_s Errors 256 " Airspeed too high" else Errors in
  let Errors :=
    if (FlapAngle < MIN_FLAP_ANGLE)%f32
    then strcat_s Errors 256 " Flaps too low" else Errors in
  let Errors :=
    if (GearDeployRatio != GEAR_DOWN_RATIO)%f32
    then strcat_s Errors 256 " Gear not down" else Errors in
  let Errors :=
    if (AltitudeAboveGround > MAX_ALTITUDE)%f32
    then strcat_s Errors 256 " Altitude too high" else Errors in
  Errors.

Definition Enable : M unit :=
  st <- get_CurrentState ;;
  if states_eqb st WAIT_FOR_USER
  then
    IndicatedAirSpeed <- XPLMGetDataf IndicatedAirSpeedRef ;;
    FlapAngles_0 <- XPLMGetDatavf_0 FlapsAngleRef ;;
    GearDeployRatio_0 <- XPLMGetDatavf_0 GearDeployRatioRef ;;
    AltitudeAboveGround <- XPLMGetDataf AltitudeAboveGroundRef ;;
    if conditions_met IndicatedAirSpeed FlapAngles_0 GearDeployRatio_0 AltitudeAboveGround
    then
      set_DeactivationRequested FALSE ;;
      set_CurrentState START
    else
      let Errors :=
        Errors_text IndicatedAirSpeed FlapAngles_0 GearDeployRatio_0 AltitudeAboveGround in
      if (0 <? String.length Errors)%nat
      then XPLMSpeakString Errors
      else ret tt
  else XPLMSpeakString "Already enabled".

(** [EnableCmdHandler]: the custom command; phase 0 is the button press.
    Returns 0 to stop further processing of the command. *)
Definition EnableCmdHandler (inPhase : Z) : M Z :=
  (if (inPhase =? 0)%Z then Enable else ret tt) ;;
  ret 0%Z.

(** [MenuHandlerCallback]: [inItemRef] is the menu item's id after the cast
    to [int]. *)
Definition MenuHandlerCallback (inItemRef : Z) : M unit :=
  if (inItemRef =? MENU_ITEM_ID_ENABLE)%Z
  then Enable
  else if (inItemRef =? MENU_ITEM_ID_STOP)%Z
  then
    st <- get_CurrentState ;;
    if negb (states_eqb st WAIT_FOR_USER)
    then set_DeactivationRequested TRUE
    else ret tt
  else ret tt.

(* ================================================================== *)
(** * The host: callbacks, runs and reachable worlds *)

(** The three ways the simulator calls into the plugin after start-up. *)
Inductive callback : Type :=
| FlightLoop                      (* [StateMachine], every 0.25 s *)
| EnableCommand (inPhase : Z)     (* [EnableCmdHandler] *)
| MenuChoice (inItemRef : Z).     (* [MenuHandlerCallback] *)

Definition dispatch (c : callback) : M unit :=
  match c with
  | FlightLoop => StateMachine ;; ret tt
  | EnableCommand inPhase => EnableCmdHandler inPhase ;; ret tt
  | MenuChoice inItemRef => MenuHandlerCallback inItemRef
  end.

(** The spec's names for the three operations of the core. *)
Definition tick : callback := FlightLoop.
Definition requestActivate : callback := MenuChoice MENU_ITEM_ID_ENABLE.
Definition requestDeactivate : callback := MenuChoice MENU_ITEM_ID_STOP.

(** Operator intents are the callbacks other than the flight loop. *)
Definition is_intent (c : callback) : bool :=
  match c with FlightLoop => false | _ => true end.

(** A callback that reaches [Enable]. *)
Definition is_activation (c : callback) : bool :=
  match c with
  | FlightLoop => false
  | EnableCommand inPhase => (inPhase =? 0)%Z
  | MenuChoice inItemRef => (inItemRef =? MENU_ITEM_ID_ENABLE)%Z
  end.

(** The world after [XPluginStart]: the static initialisers of the two
    globals, and no command held. *)
Definition initial : world := mkWorld WAIT_FOR_USER false false false.

(** A run is a sequence of callbacks, each with the sensor values of its
    instant; callbacks are serialised by the host. *)
Definition schedule : Type := list (callback * sensors).

Fixpoint run (tr : schedule) (w : world) : world * list event :=
  match tr with
  | [] => (w, [])
  | (c, env) :: tr' =>
      let '(_, w1, l1) := dispatch c env w in
      let '(w2, l2) := run tr' w1 in
      (w2, l1 ++ l2)
  end.

(** The states entered along a run, one per callback. *)
Fixpoint visited (tr : schedule) (w : world) : list states_t :=
  match tr with
  | [] => []
  | (c, env) :: tr' =>
      let w1 := exec (dispatch c) env w in
      CurrentState w1 :: visited tr' w1
  end.

Inductive reachable : world -> Prop :=
| reachable_initial : reachable initial
| reachable_step : forall c env w,
    reachable w -> reachable (exec (dispatch c) env w).

(** [completes_cycle tr w]: from the non-idle world [w], the run [tr]
    returns to [WAIT_FOR_USER] at its last callback and not before. *)
Fixpoint completes_cycle (tr : schedule) (w : world) : bool :=
  match tr with
  | [] => false
  | (c, env) :: tr' =>
      let w1 := exec (dispatch c) env w in
      if states_eqb (CurrentState w1) WAIT_FOR_USER
      then match tr' with [] => true | _ :: _ => false end
      else completes_cycle tr' w1
  end.

(** [within_cycle tr w]: the run [tr] from [w] does not go on after a
    return to [WAIT_FOR_USER]; it may stop before one. *)
Fixpoint within_cycle (tr : schedule) (w : world) : bool :=
  match tr with
  | [] => true
  | (c, env) :: tr' =>
      let w1 := exec (dispatch c) env w in
      if states_eqb (CurrentState w1) WAIT_FOR_USER
      then match tr' with [] => true | _ :: _ => false end
      else within_cycle tr' w1
  end.

(* ------------------------------------------------------------------ *)
(** ** Observations on event lists *)

Definition XPLMCommandRef_eqb (a b : XPLMCommandRef) : bool :=
  match a, b with
  | ReverseThrustCmd, ReverseThrustCmd => true
  | ThrottleDownCmd, ThrottleDownCmd => true
  | _, _ => false
  end.

Definition is_begin (c : XPLMCommandRef) (e : event) : bool :=
  match e with EvCommandBegin c' => XPLMCommandRef_eqb c c' | _ => false end.
Definition is_end (c : XPLMCommandRef) (e : event) : bool :=
  match e with EvCommandEnd c' => XPLMCommandRef_eqb c c' | _ => false end.
Definition is_get_data (e : event) : bool :=
  match e with EvGetData _ => true | _ => false end.

Definition count (p : event -> bool) (l : list event) : nat :=
  List.length (filter p l).

(** The begin and end calls on one command, in the order they were made. *)
Definition hold_calls (c : XPLMCommandRef) (l : list event) : list event :=
  filter (fun e => is_begin c e || is_end c e) l.

(* ------------------------------------------------------------------ *)
(** ** The eligibility predicates and the advisory labels *)

Inductive violation : Type :=
| AirspeedTooHigh
| FlapsTooLow
| GearNotDown
| AltitudeTooHigh.

Definition all_violations : list violation :=
  [AirspeedTooHigh; FlapsTooLow; GearNotDown; AltitudeTooHigh].

(** The text [Enable] appends for each label. *)
Definition violation_text (v : violation) : string :=
  match v with
  | AirspeedTooHigh => " Airspeed too high"
  | FlapsTooLow => " Flaps too low"
  | GearNotDown => " Gear not down"
  | AltitudeTooHigh => " Altitude too high"
  end.

(** The landing condition behind each label, as [Enable] tests it. *)
Definition predicate_holds (v : violation) (env : sensors) : bool :=
  match v with
  | AirspeedTooHigh => (indicated_airspeed2 env <= MAX_AIRSPEED)%f32
  | FlapsTooLow => (flap1_deg_0 env >= MIN_FLAP_ANGLE)%f32
  | GearNotDown => (deploy_ratio_0 env == GEAR_DOWN_RATIO)%f32
  | AltitudeTooHigh => (y_agl env <= MAX_ALTITUDE)%f32
  end.

(** The complementary test that guards each label's [strcat_s]. *)
Definition violation_reported (v : violation) (env : sensors) : bool :=
  match v with
  | AirspeedTooHigh => (indicated_airspeed2 env > MAX_AIRSPEED)%f32
  | FlapsTooLow => (flap1_deg_0 env < MIN_FLAP_ANGLE)%f32
  | GearNotDown => (deploy_ratio_0 env != GEAR_DOWN_RATIO)%f32
  | AltitudeTooHigh => (y_agl env > MAX_ALTITUDE)%f32
  end.

Definition eligible (env : sensors) : bool :=
  conditions_met (indicated_airspeed2 env) (flap1_deg_0 env)
                 (deploy_ratio_0 env) (y_agl env).

(** The four readings [Enable] compares are numbers: binary32 values that
    are neither NaN nor infinite. *)
Definition number_readings (env : sensors) : bool :=
  forallb (fun x => F32.valid x && F32.is_finite x)
          [indicated_airspeed2 env; flap1_deg_0 env; deploy_ratio_0 env; y_agl env].

(** The landing conditions in the words of the specification, on the numbers
    the readings stand for (in units of 2^-149): airspeed <= 160,
    flap angle >= 18, gear ratio = 1, altitude <= 152.4 = 1524 / 10. *)
Definition condition_on_value (v : violation) (env : sensors) : bool :=
  match v with
  | AirspeedTooHigh => (F32.ulps (indicated_airspeed2 env) <=? 160 * 2 ^ 149)%Z
  | FlapsTooLow => (18 * 2 ^ 149 <=? F32.ulps (flap1_deg_0 env))%Z
  | GearNotDown => (F32.ulps (deploy_ratio_0 env) =? 1 * 2 ^ 149)%Z
  | AltitudeTooHigh => (10 * F32.ulps (y_agl env) <=? 1524 * 2 ^ 149)%Z
  end.

(** None of the three readings that are compared by order is a NaN. *)
Definition ordered_readings (env : sensors) : bool :=
  negb (F32.is_nan (indicated_airspeed2 env))
  && negb (F32.is_nan (flap1_deg_0 env))
  && negb (F32.is_nan (y_agl env)).

(** The text [Enable] assembles when [r] tells which labels to report:
    the labels' texts in the order of the four [strcat_s]. *)
Definition advisory (r : violation -> bool) : string :=
  fold_right (fun v acc => if r v then (violation_text v ++ acc)%string else acc)
             EmptyString all_violations.

(** [occurs pat s]: the text [pat] occurs in [s]. *)
Definition occurs (pat s : string) : bool :=
  match index 0 pat s with Some _ => true | None => false end.

(** A label is spoken by a callback when one of its [XPLMSpeakString] calls
    carries the label's text. *)
Definition spoken (l : list event) (v : violation) : bool :=
  existsb (fun e => match e with
                    | EvSpeak text => occurs (violation_text v) text
                    | _ => false
                    end) l.

(** The labels spoken, as a sublist of [all_violations]. *)
Definition spoken_set (l : list event) : list violation :=
  filter (spoken l) all_violations.

(* ------------------------------------------------------------------ *)
(** ** Holds and states *)

(** Each hold is active in exactly one state: throttle down while waiting
    for idle throttle, reverse thrust while waiting for its end. *)
Definition holds_match_state (w : world) : bool :=
  Bool.eqb (throttle_down_held w)
           (states_eqb (CurrentState w) WAIT_FOR_IDLE_THROTTLE)
  && Bool.eqb (reverse_thrust_held w)
              (states_eqb (CurrentState w) WAIT_FOR_END_OF_REVERSE).

(* ------------------------------------------------------------------ *)
(** ** Activation cycles *)

(** The run enters [WAIT_FOR_END_OF_REVERSE] at some callback. *)
Definition reaches_reverse (tr : schedule) (w : world) : bool :=
  existsb (states_eqb WAIT_FOR_END_OF_REVERSE) (visited tr w).

(** From the idle world [w0], an activation with the readings [env0] arms
    the manager and the run [tr] then brings it back to [WAIT_FOR_USER] for
    the first time at its last callback. *)
Definition is_activation_cycle (env0 : sensors) (tr : schedule) (w0 : world) : bool :=
  states_eqb (CurrentState w0) WAIT_FOR_USER
  && states_eqb (CurrentState (exec Enable env0 w0)) START
  && completes_cycle tr (exec Enable env0 w0).

(** The simulator calls made during the cycle, activation included. *)
Definition cycle_events (env0 : sensors) (tr : schedule) (w0 : world) : list event :=
  emitted Enable env0 w0 ++ snd (run tr (exec Enable env0 w0)).

(* ------------------------------------------------------------------ *)
(** ** Two statements taken literally from the specification

    They are stated here as predicates on a concrete input so that they can
    be tested on one. *)

(** "requestActivate() transitions out of Idle if and only if all four
    predicates hold; otherwise LandingState stays Idle and the violation set
    is exactly the predicates that failed." *)
Definition activation_as_specified (env : sensors) (w : world) : Prop :=
  (CurrentState (exec Enable env w) = START
   <-> forall v, predicate_holds v env = true)
  /\ ((exists v, predicate_holds v env = false) ->
      CurrentState (exec Enable env w) = WAIT_FOR_USER
      /\ forall v, spoken (emitted Enable env w) v = true
                   <-> predicate_holds v env = false).

(** "The reverse-thrust hold is begun exactly once per activation cycle and
    ended exactly once." *)
Definition reverse_hold_as_specified (env0 : sensors) (tr : schedule) (w0 : world) : Prop :=
  is_activation_cycle env0 tr w0 = true ->
  count (is_begin ReverseThrustCmd) (cycle_events env0 tr w0) = 1%nat
  /\ count (is_end ReverseThrustCmd) (cycle_events env0 tr w0) = 1%nat.

(* ------------------------------------------------------------------ *)
(** ** Sample readings *)

Module Sample.

(** binary32 literals: value = mantissa * 2^exponent. *)
Definition f0_3 : F32.float := S754_finite false 10066330 (-25).   (* 0.3f *)
Definition f0_999 : F32.float := S754_finite false 16760439 (-24). (* 0.999f *)
Definition f1_pred : F32.float := S754_finite false 16777215 (-24). (* 1 - 2^-24 *)
Definition f1_succ : F32.float := S754_finite false 8388609 (-23).  (* 1 + 2^-23 *)
Definition f20 : F32.float := S754_finite false 10485760 (-19).
Definition f55 : F32.float := S754_finite false 14417920 (-18).
Definition f80 : F32.float := S754_finite false 10485760 (-17).
Definition f100 : F32.float := S754_finite false 13107200 (-17).
Definition f150 : F32.float := S754_finite false 9830400 (-16).
Definition f170 : F32.float := S754_finite false 11141120 (-16).
Definition f_minus_half : F32.float := S754_finite true 8388608 (-24). (* -0.5f *)
Definition zero : F32.float := S754_zero false.

(** On final approach: 150 kt, flaps 20, gear down, 100 m, throttle 0.3. *)
Definition approach : sensors :=
  mkSensors f0_3 f150 0 f20 GEAR_DOWN_RATIO f100.
(** The same with the throttle already at idle. *)
Definition approach_idle : sensors :=
  mkSensors zero f150 0 f20 GEAR_DOWN_RATIO f100.
(** Too fast. *)
Definition too_fast : sensors :=
  mkSensors f0_3 f170 0 f20 GEAR_DOWN_RATIO f100.
(** The airspeed reading is not a number. *)
Definition airspeed_nan : sensors :=
  mkSensors f0_3 S754_nan 0 f20 GEAR_DOWN_RATIO f100.
(** On the runway at 80 kt, then at 55 kt. *)
Definition rollout_80 : sensors :=
  mkSensors zero f80 1 f20 GEAR_DOWN_RATIO zero.
Definition rollout_55 : sensors :=
  mkSensors zero f55 1 f20 GEAR_DOWN_RATIO zero.
(** Throttle lever reading below zero. *)
Definition throttle_negative : sensors :=
  mkSensors f_minus_half f150 0 f20 GEAR_DOWN_RATIO f100.

(** A landing flown to the end: activate, throttle down, touch down,
    reverse above 60 kt, release at 55 kt. *)
Definition full_landing : schedule :=
  [ (requestActivate, approach);
    (tick, approach); (tick, approach); (tick, approach_idle);
    (tick, rollout_80); (tick, rollout_80); (tick, rollout_55) ].

(** A cycle abandoned while waiting for touch down. *)
Definition abandoned_before_touchdown : schedule :=
  [ (tick, approach_idle); (requestDeactivate, approach_idle);
    (tick, approach_idle) ].

(** A touch down below 60 kt with a deactivation request pending. *)
Definition slow_touchdown_with_request : schedule :=
  [ (requestActivate, approach_idle); (tick, approach_idle);
    (tick, rollout_55); (requestDeactivate, rollout_55); (tick, rollout_55) ].

End Sample.

(* ================================================================== *)
(** * Further observations on callbacks and runs *)

Definition is_command_call (e : event) : bool :=
  match e with EvCommandBegin _ | EvCommandEnd _ => true | _ => false end.
Definition is_speak (e : event) : bool :=
  match e with EvSpeak _ => true | _ => false end.

(** The stop item of the menu. *)
Definition is_stop (c : callback) : bool :=
  match c with
  | MenuChoice inItemRef => (inItemRef =? MENU_ITEM_ID_STOP)%Z
  | _ => false
  end.

(** The number of flight-loop callbacks in a run. *)
Definition ticks (tr : schedule) : nat :=
  List.length (filter (fun ce => negb (is_intent (fst ce))) tr).

(** The readings of the last flight-loop callback of a run. *)
Fixpoint last_tick (tr : schedule) : option sensors :=
  match tr with
  | [] => None
  | (c, env) :: tr' =>
      match last_tick tr' with
      | Some env' => Some env'
      | None => if is_intent c then None else Some env
      end
  end.

(** [advances a b]: [b] is [WAIT_FOR_USER] or does not come before [a] in
    the order of the enumeration. *)
Definition advances (a b : states_t) : bool :=
  states_eqb b WAIT_FOR_USER || (states_to_Z a <=? states_to_Z b)%Z.

Fixpoint chain (a : states_t) (l : list states_t) : bool :=
  match l with
  | [] => true
  | b :: l' => advances a b && chain b l'
  end.



(** The number of ticks after which a pending deactivation request has
    certainly been honoured, by the state it finds the manager in. *)
Definition ticks_to_idle_on_request (st : states_t) : nat :=
  match st with
  | WAIT_FOR_USER => 0
  | START => 3
  | THROTTLE_DOWN => 2
  | WAIT_FOR_IDLE_THROTTLE => 1
  | WAIT_FOR_TOUCHDOWN => 1
  | APPLY_REVERSE => 2
  | WAIT_FOR_END_OF_REVERSE => 1
  end.

(** The run enters [WAIT_FOR_IDLE_THROTTLE] at some callback. *)
Definition reaches_idle_throttle_wait (tr : schedule) (w : world) : bool :=
  existsb (states_eqb WAIT_FOR_IDLE_THROTTLE) (visited tr w).

(** The text of the one [XPLMSpeakString] call of a callback, if any. *)
Definition speech (l : list event) : list string :=
  flat_map (fun e => match e with EvSpeak text => [text] | _ => [] end) l.

(** The reading each landing condition is about. *)
Definition reading (v : violation) (env : sensors) : F32.float :=
  match v with
  | AirspeedTooHigh => indicated_airspeed2 env
  | FlapsTooLow => flap1_deg_0 env
  | GearNotDown => deploy_ratio_0 env
  | AltitudeTooHigh => y_agl env
  end.

(** The four reads [Enable] makes in [WAIT_FOR_USER], in order. *)
Definition Enable_reads : list event :=
  [EvGetData IndicatedAirSpeedRef; EvGetData FlapsAngleRef;
   EvGetData GearDeployRatioRef; EvGetData AltitudeAboveGroundRef].

(** The world in which the last callback of a run is made. *)
Fixpoint world_before_last (tr : schedule) (w : world) : world :=
  match tr with
  | [] => w
  | (c, env) :: tr' =>
      match tr' with
      | [] => w
      | _ :: _ => world_before_last tr' (exec (dispatch c) env w)
      end
  end.

(** A cycle whose last callback is made in [WAIT_FOR_TOUCHDOWN]: it can only
    be the tick that consumes a deactivation request there. *)
Definition ends_in_touchdown_wait (tr : schedule) (w : world) : bool :=
  states_eqb (CurrentState (world_before_last tr w)) WAIT_FOR_TOUCHDOWN.

Definition everything_wrong : sensors :=
  mkSensors Sample.f0_3 Sample.f170 0 Sample.zero Sample.f0_999 Sample.f170.

(* ================================================================== *)
(** * [XPluginStart]: finding the commands and data references *)

(** [#define PLUGIN_NAME "Landing Throttle Manager"] *)
Definition PLUGIN_NAME : string := "Landing Throttle Manager".

(** A handle returned by the simulator; [None] is [NULL]. *)
Definition handle : Type := Z.

(** The simulator's side of [XPLMFindCommand] and [XPLMFindDataRef]: the
    commands and data references it knows by name. *)
Record simulator : Type := mkSimulator {
  find_command : string -> option handle;
  find_dataref : string -> option handle
}.

(** The calls [XPluginStart] makes into the simulator, in order. *)
Inductive host_call : Type :=
| CallAppendMenuItem (in_own_menu : bool) (title : string) (itemRef : Z)
| CallCreateMenu (title : string)
| CallFindCommand (name : string)
| CallFindDataRef (name : string)
| CallCreateCommand (name description : string)
| CallRegisterCommandHandler (inBefore : Z)
| CallRegisterFlightLoopCallback (interval : F32.float).

(** The three output buffers, the static handles, [CurrentState], and the
    calls made so far.  The handles start out [NULL], as the static
    initialisers say. *)
Record start_state : Type := mkStart {
  outName : string;
  outSig : string;
  outDesc : string;
  command_ref : XPLMCommandRef -> option handle;
  data_ref : XPLMDataRef -> option handle;
  EnableCmd_created : bool;
  start_CurrentState : states_t;
  host_calls : list host_call
}.

Definition before_start : start_state :=
  mkStart EmptyString EmptyString EmptyString
          (fun _ => None) (fun _ => None) false WAIT_FOR_USER [].

(** A computation of [XPluginStart]: it either goes on with a value or has
    executed [return] with a result. *)
Definition S (A : Type) : Type :=
  simulator -> start_state -> (A + Z) * start_state.

Definition s_ret {A} (a : A) : S A := fun _ st => (inl a, st).

Definition s_bind {A B} (m : S A) (k : A -> S B) : S B :=
  fun sim st =>
    match m sim st with
    | (inl a, st1) => k a sim st1
    | (inr z, st1) => (inr z, st1)
    end.

(** [return z;] *)
Definition s_return {A} (z : Z) : S A := fun _ st => (inr z, st).

Definition s_call (c : host_call) : S unit :=
  fun _ st =>
    (inl tt,
     mkStart (outName st) (outSig st) (outDesc st) (command_ref st) (data_ref st)
             (EnableCmd_created st) (start_CurrentState st)
             (host_calls st ++ [c])).

Definition XPLMDataRef_eqb (a b : XPLMDataRef) : bool :=
  match a, b with
  | ThrottleRatioRef, ThrottleRatioRef
  | IndicatedAirSpeedRef, IndicatedAirSpeedRef
  | AllWheelsOnGroundRef, AllWheelsOnGroundRef
  | FlapsAngleRef, FlapsAngleRef
  | GearDeployRatioRef, GearDeployRatioRef
  | AltitudeAboveGroundRef, AltitudeAboveGroundRef => true
  | _, _ => false
  end.

(** [var = XPLMFindCommand(name);] *)
Definition assign_XPLMFindCommand (var : XPLMCommandRef) (name : string) : S (option handle) :=
  fun sim st =>
    let h := find_command sim name in
    (inl h,
     mkStart (outName st) (outSig st) (outDesc st)
             (fun v => if XPLMCommandRef_eqb v var then h else command_ref st v)
             (data_ref st) (EnableCmd_created st) (start_CurrentState st)
             (host_calls st ++ [CallFindCommand name])).

(** [var = XPLMFindDataRef(name);] *)
Definition assign_XPLMFindDataRef (var : XPLMDataRef) (name : string) : S (option handle) :=
  fun sim st =>
    let h := find_dataref sim name in
    (inl h,
     mkStart (outName st) (outSig st) (outDesc st) (command_ref st)
             (fun v => if XPLMDataRef_eqb v var then h else data_ref st v)
             (EnableCmd_created st) (start_CurrentState st)
             (host_calls st ++ [CallFindDataRef name])).

(** [strcpy_s] and the [sprintf_s] calls without conversions, on [outDesc]. *)
Definition write_outDesc (text : string) : S unit :=
  fun _ st =>
    (inl tt,
     mkStart (outName st) (outSig st) text (command_ref st) (data_ref st)
             (EnableCmd_created st) (start_CurrentState st) (host_calls st)).

Definition write_outName (text : string) : S unit :=
  fun _ st =>
    (inl tt,
     mkStart text (outSig st) (outDesc st) (command_ref st) (data_ref st)
             (EnableCmd_created st) (start_CurrentState st) (host_calls st)).

Definition write_outSig (text : string) : S unit :=
  fun _ st =>
    (inl tt,
     mkStart (outName st) text (outDesc st) (command_ref st) (data_ref st)
             (EnableCmd_created st) (start_CurrentState st) (host_calls st)).

(** [if (var == NULL) { sprintf_s(outDesc, 256, msg); return FALSE; }] *)
Definition if_NULL_fail (var : option handle) (msg : string) : S unit :=
  match var with
  | None => s_bind (write_outDesc msg) (fun _ => s_return FALSE)
  | Some _ => s_ret tt
  end.

(** [EnableCmd = XPLMCreateCommand(CmdName, CmdDesc);] *)
Definition assign_XPLMCreateCommand (name description : string) : S unit :=
  fun _ st =>
    (inl tt,
     mkStart (outName st) (outSig st) (outDesc st) (command_ref st) (data_ref st)
             true (start_CurrentState st)
             (host_calls st ++ [CallCreateCommand name description])).

(** [CurrentState = WAIT_FOR_USER;] *)
Definition start_set_CurrentState (s : states_t) : S unit :=
  fun _ st =>
    (inl tt,
     mkStart (outName st) (outSig st) (outDesc st) (command_ref st) (data_ref st)
             (EnableCmd_created st) s (host_calls st)).

Declare Scope s_scope.
Delimit Scope s_scope with s.
Notation "x <- c1 ;; c2" := (s_bind c1 (fun x => c2))
  (at level 61, c1 at next level, right associativity) : s_scope.
Notation "c1 ;; c2" := (s_bind c1 (fun _ => c2))
  (at level 61, right associativity) : s_scope.

(** [sprintf_s(buf, 100, "%s//Enable", PLUGIN_NAME)] and
    [sprintf_s(buf, 100, "Enable the %s", PLUGIN_NAME)]: the only conversion
    is [%s] of a string. *)
Definition CmdName : string := (PLUGIN_NAME ++ "//Enable")%string.
Definition CmdDesc : string := ("Enable the " ++ PLUGIN_NAME)%string.

Definition XPluginStart_body : S Z :=
  (write_outName PLUGIN_NAME ;;
   write_outSig "britishideas.assistants.landingthrottlemanager" ;;
   write_outDesc "Handles the throttle and reverse thrust on landing for VR users" ;;
   s_call (CallAppendMenuItem false PLUGIN_NAME 0) ;;
   s_call (CallCreateMenu PLUGIN_NAME) ;;
   s_call (CallAppendMenuItem true "Enable" MENU_ITEM_ID_ENABLE) ;;
   s_call (CallAppendMenuItem true "Stop and disable" MENU_ITEM_ID_STOP) ;;
   r <- assign_XPLMFindCommand ReverseThrustCmd "sim/engines/thrust_reverse_hold" ;;
   if_NULL_fail r "Failed to find reverse thrust command" ;;
   r <- assign_XPLMFindCommand ThrottleDownCmd "sim/engines/throttle_down" ;;
   if_NULL_fail r "Failed to find throttle down command" ;;
   r <- assign_XPLMFindDataRef ThrottleRatioRef
          "sim/cockpit2/engine/actuators/throttle_ratio_all" ;;
   if_NULL_fail r "Failed to find reverse throttle ratio data" ;;
   r <- assign_XPLMFindDataRef IndicatedAirSpeedRef
          "sim/flightmodel/position/indicated_airspeed2" ;;
   if_NULL_fail r "Failed to find indicated air speed data" ;;
   r <- assign_XPLMFindDataRef AllWheelsOnGroundRef
          "sim/flightmodel/failures/onground_all" ;;
   if_NULL_fail r "Failed to find all wheels on ground data" ;;
   r <- assign_XPLMFindDataRef FlapsAngleRef "sim/flightmodel2/wing/flap1_deg" ;;
   if_NULL_fail r "Failed to find flaps angle data" ;;
   r <- assign_XPLMFindDataRef GearDeployRatioRef "sim/flightmodel2/gear/deploy_ratio" ;;
   if_NULL_fail r "Failed to find gear deploy data" ;;
   r <- assign_XPLMFindDataRef AltitudeAboveGroundRef "sim/flightmodel2/position/y_agl" ;;
   if_NULL_fail r "Failed to find altitude above ground data" ;;
   assign_XPLMCreateCommand CmdName CmdDesc ;;
   s_call (CallRegisterCommandHandler 1) ;;
   start_set_CurrentState WAIT_FOR_USER ;;
   s_call (CallRegisterFlightLoopCallback STATE_MACHINE_EXECUTION_INTERVAL) ;;
   s_return TRUE)%s.

(** The function's result and what it leaves behind. *)
Definition XPluginStart (sim : simulator) : Z * start_state :=
  match XPluginStart_body sim before_start with
  | (inl z, st) => (z, st)
  | (inr z, st) => (z, st)
  end.

(** The eight lookups in the order of the source: whether it is a command,
    the name, and the message written when it is missing. *)
Definition lookups : list (bool * string * string) :=
  [ (true, "sim/engines/thrust_reverse_hold", "Failed to find reverse thrust command");
    (true, "sim/engines/throttle_down", "Failed to find throttle down command");
    (false, "sim/cockpit2/engine/actuators/throttle_ratio_all",
     "Failed to find reverse throttle ratio data");
    (false, "sim/flightmodel/position/indicated_airspeed2",
     "Failed to find indicated air speed data");
    (false, "sim/flightmodel/failures/onground_all",
     "Failed to find all wheels on ground data");
    (false, "sim/flightmodel2/wing/flap1_deg", "Failed to find flaps angle data");
    (false, "sim/flightmodel2/gear/deploy_ratio", "Failed to find gear deploy data");
    (false, "sim/flightmodel2/position/y_agl",
     "Failed to find altitude above ground data") ]%string.

Definition known (sim : simulator) (l : bool * string * string) : bool :=
  match (if fst (fst l) then find_command sim (snd (fst l))
         else find_dataref sim (snd (fst l))) with
  | Some _ => true
  | None => false
  end.

(** The lookups made before and including the first that fails. *)
Fixpoint lookups_tried (sim : simulator) (l : list (bool * string * string)) : list host_call :=
  match l with
  | [] => []
  | x :: l' =>
      (if fst (fst x) then CallFindCommand (snd (fst x))
       else CallFindDataRef (snd (fst x)))
      :: if known sim x then lookups_tried sim l' else []
  end.

Definition is_registration (c : host_call) : bool :=
  match c with
  | CallCreateCommand _ _ | CallRegisterCommandHandler _
  | CallRegisterFlightLoopCallback _ => true
  | _ => false
  end.

Definition menu_calls : list host_call :=
  [ CallAppendMenuItem false PLUGIN_NAME 0;
    CallCreateMenu PLUGIN_NAME;
    CallAppendMenuItem true "Enable" MENU_ITEM_ID_ENABLE;
    CallAppendMenuItem true "Stop and disable" MENU_ITEM_ID_STOP ].

(** A simulator that knows every name but the listed ones. *)
Definition simulator_without (missing : list string) : simulator :=
  mkSimulator
    (fun name => if existsb (String.eqb name) missing then None else Some 1%Z)
    (fun name => if existsb (String.eqb name) missing then None else Some 2%Z).

(* ================================================================== *)
(** * Facts about binary32 comparison *)

Arguments F32.le : simpl never.
Arguments F32.lt : simpl never.
Arguments F32.ge : simpl never.
Arguments F32.gt : simpl never.
Arguments F32.eq : simpl never.
Arguments F32.ne : simpl never.

Lemma SFcompare_antisym (a b : spec_float) :
  SFcompare b a = option_map CompOpp (SFcompare a b).
Proof.
  destruct a as [sa | sa | | sa ma ea], b as [sb | sb | | sb mb eb];
    try reflexivity;
    try (destruct sa; reflexivity);
    try (destruct sb; reflexivity);
    try (destruct sa, sb; reflexivity).
  simpl.
  change (Pos.compare_cont Eq mb ma) with (Pos.compare mb ma).
  change (Pos.compare_cont Eq ma mb) with (Pos.compare ma mb).
  rewrite (Z.compare_antisym ea eb), (Pos.compare_antisym ma mb).
  destruct sa, sb; simpl; try reflexivity;
    destruct (ea ?= eb)%Z; simpl; try reflexivity;
    destruct (Pos.compare ma mb); reflexivity.
Qed.

Lemma SFcompare_nan (a b : spec_float) :
  SFcompare a b = None <-> F32.is_nan a = true \/ F32.is_nan b = true.
Proof.
  destruct a as [sa | sa | | sa ma ea], b as [sb | sb | | sb mb eb];
    simpl; split; intros H; try discriminate; auto;
    destruct H; discriminate.
Qed.

(** [a > b] is the negation of [a <= b] exactly when neither is a NaN. *)
Lemma gt_not_le (a b : F32.float) :
  F32.is_nan a = false -> F32.is_nan b = false ->
  (a > b)%f32 = negb (a <= b)%f32.
Proof.
  intros Ha Hb. unfold F32.gt, F32.le, SFltb, SFleb.
  rewrite (SFcompare_antisym a b).
  destruct (SFcompare a b) as [[ | | ] | ] eqn:E; try reflexivity.
  apply SFcompare_nan in E. destruct E; congruence.
Qed.

Lemma lt_not_ge (a b : F32.float) :
  F32.is_nan a = false -> F32.is_nan b = false ->
  (a < b)%f32 = negb (a >= b)%f32.
Proof.
  intros Ha Hb. unfold F32.lt, F32.ge, SFltb, SFleb.
  rewrite (SFcompare_antisym a b).
  destruct (SFcompare a b) as [[ | | ] | ] eqn:E; try reflexivity.
  apply SFcompare_nan in E. destruct E; congruence.
Qed.

(** With a NaN every ordered comparison is false, in both directions. *)
Lemma nan_le_false (b : F32.float) : (S754_nan <= b)%f32 = false.
Proof. reflexivity. Qed.

Lemma nan_gt_false (b : F32.float) : (S754_nan > b)%f32 = false.
Proof. destruct b as [s | s | | s m e]; reflexivity. Qed.

(** [a <= b] excludes [a > b], NaN or not. *)
Lemma le_excludes_gt (a b : F32.float) :
  (a <= b)%f32 = true -> (a > b)%f32 = false.
Proof.
  unfold F32.gt, F32.le, SFltb, SFleb. rewrite (SFcompare_antisym a b).
  destruct (SFcompare a b) as [[ | | ] | ]; simpl; congruence.
Qed.

Lemma ge_excludes_lt (a b : F32.float) :
  (a >= b)%f32 = true -> (a < b)%f32 = false.
Proof.
  unfold F32.lt, F32.ge, SFltb, SFleb. rewrite (SFcompare_antisym a b).
  destruct (SFcompare a b) as [[ | | ] | ]; simpl; congruence.
Qed.


(** A float equal to zero is one of the two zeros. *)
Lemma eq_zero_iff (x : F32.float) :
  (x == F32.of_int_0)%f32 = true <-> exists s, x = S754_zero s.
Proof.
  unfold F32.eq, SFeqb, F32.of_int_0. split.
  - destruct x as [sx | sx | | sx mx ex]; simpl;
      try (destruct sx; discriminate); try discriminate.
    intros _. now exists sx.
  - intros [s ->]. reflexivity.
Qed.

(* ------------------------------------------------------------------ *)
(** ** Comparison is comparison of values *)

Section Binary32Order.

Local Open Scope Z_scope.

Lemma digits2_size (m : positive) : digits2_pos m = Pos.size m.
Proof. induction m; cbn; congruence. Qed.

Lemma mantissa_bounds (m : positive) :
  2 ^ (Z.pos (digits2_pos m) - 1) <= Z.pos m < 2 ^ Z.pos (digits2_pos m).
Proof.
  rewrite digits2_size. split.
  - assert (H := Pos.size_le m).
    apply Pos2Z.pos_le_pos in H. rewrite Pos2Z.inj_pow in H.
    replace (Z.pos (Pos.size m)) with (Z.succ (Z.pos (Pos.size m) - 1)) in H by lia.
    rewrite Z.pow_succ_r in H by lia. lia.
  - assert (H := Pos.size_gt m).
    apply Pos2Z.pos_lt_pos in H. now rewrite Pos2Z.inj_pow in H.
Qed.

(** A valid finite binary32: exponent between -149 and 104, mantissa below
    2^24, and a full 24-bit mantissa unless the exponent is the least one. *)
Lemma valid_finite_inv (s : bool) (m : positive) (e : Z) :
  F32.valid (S754_finite s m e) = true ->
  -149 <= e <= 104 /\ Z.pos m < 2 ^ 24 /\ (-149 < e -> 2 ^ 23 <= Z.pos m).
Proof.
  unfold F32.valid, valid_binary, bounded, canonical_mantissa, fexp, emin,
    F32.prec, F32.emax.
  rewrite andb_true_iff, Z.eqb_eq, Z.leb_le.
  intros [Hc He]. assert (Hm := mantissa_bounds m).
  set (d := Z.pos (digits2_pos m)) in *.
  assert (Hd : d <= 24 /\ -149 <= e /\ (-149 < e -> d = 24)) by lia.
  destruct Hd as (Hd & He' & Hn). repeat split; try lia.
  - apply Z.lt_le_trans with (2 ^ d); [lia | ].
    apply Z.pow_le_mono_r; lia.
  - intros H. rewrite (Hn H) in Hm. cbn in Hm. lia.
Qed.

Lemma scaled_lt_by_exponent (m1 m2 : positive) (e1 e2 : Z) :
  -149 <= e1 -> e1 < e2 -> Z.pos m1 < 2 ^ 24 -> 2 ^ 23 <= Z.pos m2 ->
  Z.pos m1 * 2 ^ (149 + e1) < Z.pos m2 * 2 ^ (149 + e2).
Proof.
  intros H1 H12 Hm1 Hm2.
  replace (149 + e2) with ((149 + e1) + (e2 - e1)) by lia.
  rewrite (Z.pow_add_r 2 (149 + e1) (e2 - e1)) by lia.
  assert (HP : 0 < 2 ^ (149 + e1)) by (apply Z.pow_pos_nonneg; lia).
  assert (HQ : 2 ^ 1 <= 2 ^ (e2 - e1)) by (apply Z.pow_le_mono_r; lia).
  change (2 ^ 1) with 2 in HQ. change (2 ^ 24) with 16777216 in Hm1.
  change (2 ^ 23) with 8388608 in Hm2.
  set (P := 2 ^ (149 + e1)) in *. set (Q := 2 ^ (e2 - e1)) in *.
  assert (H1' : Z.pos m1 * P < 16777216 * P) by nia.
  assert (H2' : 16777216 * P <= 8388608 * (P * Q)) by nia.
  assert (H3' : 0 < P * Q) by nia.
  assert (H4' : 8388608 * (P * Q) <= Z.pos m2 * (P * Q)) by nia.
  lia.
Qed.

Lemma compare_magnitudes (m1 m2 : positive) (e1 e2 : Z) :
  F32.valid (S754_finite false m1 e1) = true ->
  F32.valid (S754_finite false m2 e2) = true ->
  match e1 ?= e2 with
  | Eq => Pos.compare_cont Eq m1 m2
  | Lt => Lt
  | Gt => Gt
  end
  = (Z.pos m1 * 2 ^ (149 + e1) ?= Z.pos m2 * 2 ^ (149 + e2)).
Proof.
  intros V1 V2.
  apply valid_finite_inv in V1 as (He1 & Hm1 & Hn1).
  apply valid_finite_inv in V2 as (He2 & Hm2 & Hn2).
  destruct (Z.compare_spec e1 e2) as [-> | H | H]; symmetry.
  - change (Pos.compare_cont Eq m1 m2) with (Z.pos m1 ?= Z.pos m2).
    assert (HP : 0 < 2 ^ (149 + e2)) by (apply Z.pow_pos_nonneg; lia).
    destruct (Z.compare_spec (Z.pos m1) (Z.pos m2)) as [E | L | G].
    + rewrite E. apply Z.compare_refl.
    + apply Z.compare_lt_iff. nia.
    + apply Z.compare_gt_iff. nia.
  - apply Z.compare_lt_iff, scaled_lt_by_exponent; lia.
  - apply Z.compare_gt_iff, scaled_lt_by_exponent; lia.
Qed.

(** On binary32 numbers the comparison of C is the comparison of the
    values. *)
Lemma ulps_compare (x y : F32.float) :
  F32.valid x = true -> F32.valid y = true ->
  F32.is_finite x = true -> F32.is_finite y = true ->
  SFcompare x y = Some (F32.ulps x ?= F32.ulps y).
Proof.
  intros Vx Vy Fx Fy.
  destruct x as [sx | sx | | sx mx ex], y as [sy | sy | | sy my ey];
    try discriminate; unfold F32.ulps, F32.scaled.
  - reflexivity.
  - assert (H := valid_finite_inv _ _ _ Vy).
    assert (HP : 0 < 2 ^ (149 + ey)) by (apply Z.pow_pos_nonneg; lia).
    cbn [SFcompare]. f_equal. symmetry.
    destruct sy; [apply Z.compare_gt_iff | apply Z.compare_lt_iff]; nia.
  - assert (H := valid_finite_inv _ _ _ Vx).
    assert (HP : 0 < 2 ^ (149 + ex)) by (apply Z.pow_pos_nonneg; lia).
    cbn [SFcompare]. f_equal. symmetry.
    destruct sx; [apply Z.compare_lt_iff | apply Z.compare_gt_iff]; nia.
  - assert (Hx := valid_finite_inv _ _ _ Vx).
    assert (Hy := valid_finite_inv _ _ _ Vy).
    assert (HP : 0 < 2 ^ (149 + ex)) by (apply Z.pow_pos_nonneg; lia).
    assert (HQ : 0 < 2 ^ (149 + ey)) by (apply Z.pow_pos_nonneg; lia).
    cbn [SFcompare]. f_equal.
    destruct sx, sy.
    + change (F32.valid (S754_finite false mx ex) = true) in Vx.
      change (F32.valid (S754_finite false my ey) = true) in Vy.
      transitivity (CompOpp (match ex ?= ey with
                             | Eq => Pos.compare_cont Eq mx my
                             | Lt => Lt
                             | Gt => Gt
                             end)).
      { destruct (ex ?= ey); reflexivity. }
      rewrite (compare_magnitudes mx my ex ey Vx Vy), <- Z.compare_antisym.
      rewrite <- Z.compare_opp. f_equal; lia.
    + symmetry. apply Z.compare_lt_iff. nia.
    + symmetry. apply Z.compare_gt_iff. nia.
    + rewrite (compare_magnitudes mx my ex ey Vx Vy). f_equal; lia.
Qed.

Lemma le_ulps (x y : F32.float) :
  F32.valid x = true -> F32.valid y = true ->
  F32.is_finite x = true -> F32.is_finite y = true ->
  (x <= y)%f32 = (F32.ulps x <=? F32.ulps y).
Proof.
  intros Vx Vy Fx Fy. unfold F32.le, SFleb.
  rewrite (ulps_compare x y Vx Vy Fx Fy).
  unfold Z.leb. destruct (F32.ulps x ?= F32.ulps y); reflexivity.
Qed.

Lemma eq_ulps (x y : F32.float) :
  F32.valid x = true -> F32.valid y = true ->
  F32.is_finite x = true -> F32.is_finite y = true ->
  (x == y)%f32 = (F32.ulps x =? F32.ulps y).
Proof.
  intros Vx Vy Fx Fy. unfold F32.eq, SFeqb.
  rewrite (ulps_compare x y Vx Vy Fx Fy).
  destruct (Z.eqb_spec (F32.ulps x) (F32.ulps y)) as [E | N].
  - now rewrite E, Z.compare_refl.
  - destruct (F32.ulps x ?= F32.ulps y) eqn:C; try reflexivity.
    apply Z.compare_eq in C. contradiction.
Qed.

(** No binary32 number lies between [152.4f] and 152.4: testing a reading
    against the literal is testing its value against 152.4. *)
Lemma le_MAX_ALTITUDE (x : F32.float) :
  F32.valid x = true -> F32.is_finite x = true ->
  (x <= MAX_ALTITUDE)%f32 = (10 * F32.ulps x <=? 1524 * 2 ^ 149).
Proof.
  intros Vx Fx. rewrite (le_ulps x MAX_ALTITUDE Vx eq_refl Fx eq_refl).
  change (F32.ulps MAX_ALTITUDE) with (9987686 * 2 ^ 133).
  change (1524 * 2 ^ 149) with (99876864 * 2 ^ 133).
  assert (HP : 0 < 2 ^ 133) by reflexivity.
  set (P := 2 ^ 133) in *.
  destruct (Z.leb_spec (F32.ulps x) (9987686 * P)) as [H | H];
    destruct (Z.leb_spec (10 * F32.ulps x) (99876864 * P)) as [H' | H'];
    try reflexivity; exfalso; [lia | ].
  destruct x as [sx | sx | | sx mx ex]; try discriminate Fx;
    unfold F32.ulps, F32.scaled in *; [lia | ].
  destruct sx; [lia | ].
  apply valid_finite_inv in Vx as (He & Hm & _).
  destruct (Z_lt_le_dec ex (-16)) as [L | G].
  - (* below 2^8: too small to exceed the literal *)
    assert (Hpow : 2 ^ (149 + ex) <= 2 ^ 132) by (apply Z.pow_le_mono_r; lia).
    assert (H0 : 0 < 2 ^ (149 + ex)) by (apply Z.pow_pos_nonneg; lia).
    change (2 ^ 24) with 16777216 in Hm.
    assert (E : 2 * 2 ^ 132 = P) by reflexivity.
    set (Q := 2 ^ (149 + ex)) in *. set (R := 2 ^ 132) in *. nia.
  - (* a multiple of 2^-16: at least the next one after the literal *)
    replace (149 + ex) with (133 + (ex + 16)) in * by lia.
    rewrite Z.pow_add_r in * by lia. fold P in H, H'.
    assert (H0 : 0 < 2 ^ (ex + 16)) by (apply Z.pow_pos_nonneg; lia).
    set (Q := 2 ^ (ex + 16)) in *.
    assert (9987686 < Z.pos mx * Q) by nia.
    nia.
Qed.

End Binary32Order.

(* ================================================================== *)
(** * The literals are binary32 numbers *)

Example constants_valid :
  forallb F32.valid
    [MIN_SPEED_REVERSE_THRUST; MAX_AIRSPEED; MIN_FLAP_ANGLE; MAX_ALTITUDE;
     STATE_MACHINE_EXECUTION_INTERVAL; GEAR_DOWN_RATIO;
     Sample.f0_3; Sample.f0_999; Sample.f1_pred; Sample.f1_succ; Sample.f20;
     Sample.f55; Sample.f80; Sample.f100; Sample.f150; Sample.f170;
     Sample.f_minus_half; S754_nan; S754_zero true; S754_infinity false] = true.
Proof. reflexivity. Qed.

(** [152.4f] is the binary32 number nearest to 152.4: it lies below 152.4,
    its successor lies above, and it is the closer of the two. *)
Example MAX_ALTITUDE_nearest :
  (10 * F32.scaled 16 MAX_ALTITUDE < 1524 * 2 ^ 16
   /\ 1524 * 2 ^ 16 < 10 * (F32.scaled 16 MAX_ALTITUDE + 1)
   /\ 2 * (1524 * 2 ^ 16) < 10 * (2 * F32.scaled 16 MAX_ALTITUDE + 1))%Z.
Proof. cbv. repeat split. Qed.

(** The other thresholds are the integers of the comments. *)
Example thresholds_exact :
  (F32.scaled 25 MAX_AIRSPEED = 160 * 2 ^ 25
   /\ F32.scaled 25 MIN_FLAP_ANGLE = 18 * 2 ^ 25
   /\ F32.scaled 25 GEAR_DOWN_RATIO = 1 * 2 ^ 25
   /\ F32.scaled 25 MIN_SPEED_REVERSE_THRUST = 60 * 2 ^ 25
   /\ 4 * F32.scaled 25 STATE_MACHINE_EXECUTION_INTERVAL = 1 * 2 ^ 25)%Z.
Proof. cbv. repeat split. Qed.

(* ================================================================== *)
(** * The callbacks, state by state *)

Ltac unfold_callbacks :=
  unfold exec, emitted, dispatch, StateMachine, EnableCmdHandler,
    MenuHandlerCallback, Enable, bind, ret,
    get_CurrentState, set_CurrentState,
    get_DeactivationRequested, set_DeactivationRequested,
    XPLMGetDataf, XPLMGetDatai, XPLMGetDatavf_0,
    XPLMCommandBegin, XPLMCommandEnd, XPLMSpeakString in *.

Section TransitionTable.

Variables (d th rv : bool) (env : sensors).

Let dt := STATE_MACHINE_EXECUTION_INTERVAL.

Lemma StateMachine_WAIT_FOR_USER :
  StateMachine env (mkWorld WAIT_FOR_USER d th rv)
  = (dt, mkWorld WAIT_FOR_USER d th rv, []).
Proof. reflexivity. Qed.

Lemma StateMachine_START :
  StateMachine env (mkWorld START d th rv)
  = (dt,
     mkWorld (if (throttle_ratio_all env > F32.of_int_0)%f32
              then THROTTLE_DOWN else WAIT_FOR_TOUCHDOWN) d th rv,
     [EvGetData ThrottleRatioRef]).
Proof.
  unfold_callbacks; cbn.
  destruct (throttle_ratio_all env > F32.of_int_0)%f32; reflexivity.
Qed.

Lemma StateMachine_THROTTLE_DOWN :
  StateMachine env (mkWorld THROTTLE_DOWN d th rv)
  = (dt, mkWorld WAIT_FOR_IDLE_THROTTLE d true rv,
     [EvCommandBegin ThrottleDownCmd]).
Proof. reflexivity. Qed.

Lemma StateMachine_WAIT_FOR_IDLE_THROTTLE :
  StateMachine env (mkWorld WAIT_FOR_IDLE_THROTTLE d th rv)
  = if d
    then (dt, mkWorld WAIT_FOR_USER false false rv,
          [EvCommandEnd ThrottleDownCmd])
    else if (throttle_ratio_all env == F32.of_int_0)%f32
    then (dt, mkWorld WAIT_FOR_TOUCHDOWN false false rv,
          [EvGetData ThrottleRatioRef; EvCommandEnd ThrottleDownCmd])
    else (dt, mkWorld WAIT_FOR_IDLE_THROTTLE false th rv,
          [EvGetData ThrottleRatioRef]).
Proof.
  unfold_callbacks; destruct d; cbn; [reflexivity | ].
  destruct (throttle_ratio_all env == F32.of_int_0)%f32; reflexivity.
Qed.

Lemma StateMachine_WAIT_FOR_TOUCHDOWN :
  StateMachine env (mkWorld WAIT_FOR_TOUCHDOWN d th rv)
  = if d
    then (dt, mkWorld WAIT_FOR_USER false th false,
          [EvCommandEnd ReverseThrustCmd])
    else if (onground_all env =? TRUE)%Z
    then (dt, mkWorld APPLY_REVERSE false th rv,
          [EvGetData AllWheelsOnGroundRef])
    else (dt, mkWorld WAIT_FOR_TOUCHDOWN false th rv,
          [EvGetData AllWheelsOnGroundRef]).
Proof.
  unfold_callbacks; destruct d; cbn; [reflexivity | ].
  destruct (onground_all env =? TRUE)%Z; reflexivity.
Qed.

Lemma StateMachine_APPLY_REVERSE :
  StateMachine env (mkWorld APPLY_REVERSE d th rv)
  = if (indicated_airspeed2 env > MIN_SPEED_REVERSE_THRUST)%f32
    then (dt, mkWorld WAIT_FOR_END_OF_REVERSE d th true,
          [EvGetData IndicatedAirSpeedRef; EvCommandBegin ReverseThrustCmd])
    else (dt, mkWorld WAIT_FOR_USER d th rv,
          [EvGetData IndicatedAirSpeedRef]).
Proof.
  unfold_callbacks; cbn.
  destruct (indicated_airspeed2 env > MIN_SPEED_REVERSE_THRUST)%f32;
    reflexivity.
Qed.

Lemma StateMachine_WAIT_FOR_END_OF_REVERSE :
  StateMachine env (mkWorld WAIT_FOR_END_OF_REVERSE d th rv)
  = if d
    then (dt, mkWorld WAIT_FOR_USER false th false,
          [EvCommandEnd ReverseThrustCmd])
    else if (indicated_airspeed2 env <= MIN_SPEED_REVERSE_THRUST)%f32
    then (dt, mkWorld WAIT_FOR_USER false th false,
          [EvGetData IndicatedAirSpeedRef; EvCommandEnd ReverseThrustCmd])
    else (dt, mkWorld WAIT_FOR_END_OF_REVERSE false th rv,
          [EvGetData IndicatedAirSpeedRef]).
Proof.
  unfold_callbacks; destruct d; cbn; [reflexivity | ].
  destruct (indicated_airspeed2 env <= MIN_SPEED_REVERSE_THRUST)%f32;
    reflexivity.
Qed.

(** The four readings [Enable] takes before it decides. *)
Let readings : list event :=
  [EvGetData IndicatedAirSpeedRef; EvGetData FlapsAngleRef;
   EvGetData GearDeployRatioRef; EvGetData AltitudeAboveGroundRef].

Let Errors : string :=
  Errors_text (indicated_airspeed2 env) (flap1_deg_0 env)
              (deploy_ratio_0 env) (y_agl env).

Lemma Enable_WAIT_FOR_USER :
  Enable env (mkWorld WAIT_FOR_USER d th rv)
  = if eligible env
    then (tt, mkWorld START false th rv, readings)
    else (tt, mkWorld WAIT_FOR_USER d th rv,
          readings ++ if (0 <? String.length Errors)%nat
                      then [EvSpeak Errors] else []).
Proof.
  unfold_callbacks; unfold eligible; cbn -[Nat.ltb].
  destruct (conditions_met _ _ _ _); cbn -[Nat.ltb]; [reflexivity | ].
  fold Errors. destruct (0 <? String.length Errors)%nat; reflexivity.
Qed.

Lemma Enable_busy (st : states_t) :
  st <> WAIT_FOR_USER ->
  Enable env (mkWorld st d th rv)
  = (tt, mkWorld st d th rv, [EvSpeak "Already enabled"]).
Proof. destruct st; intros H; try reflexivity. now elim H. Qed.

Lemma Stop_WAIT_FOR_USER :
  MenuHandlerCallback MENU_ITEM_ID_STOP env (mkWorld WAIT_FOR_USER d th rv)
  = (tt, mkWorld WAIT_FOR_USER d th rv, []).
Proof. reflexivity. Qed.

Lemma Stop_busy (st : states_t) :
  st <> WAIT_FOR_USER ->
  MenuHandlerCallback MENU_ITEM_ID_STOP env (mkWorld st d th rv)
  = (tt, mkWorld st true th rv, []).
Proof. destruct st; intros H; try reflexivity. now elim H. Qed.

End TransitionTable.

(** Every callback is [StateMachine], [Enable], the stop branch of the menu
    handler, or does nothing at all. *)
Lemma dispatch_cases (c : callback) (env : sensors) (w : world) :
  (c = FlightLoop
   /\ exec (dispatch c) env w = exec StateMachine env w
   /\ emitted (dispatch c) env w = emitted StateMachine env w)
  \/ (is_activation c = true
      /\ exec (dispatch c) env w = exec Enable env w
      /\ emitted (dispatch c) env w = emitted Enable env w)
  \/ (c = MenuChoice MENU_ITEM_ID_STOP
      /\ exec (dispatch c) env w
         = exec (MenuHandlerCallback MENU_ITEM_ID_STOP) env w
      /\ emitted (dispatch c) env w = [])
  \/ (is_intent c = true /\ is_activation c = false
      /\ exec (dispatch c) env w = w /\ emitted (dispatch c) env w = []).
Proof.
  destruct c as [ | inPhase | inItemRef].
  - left. split; [reflexivity | ].
    unfold exec, emitted, dispatch, bind, ret.
    destruct (StateMachine env w) as [[a w1] l1]; cbn.
    now rewrite app_nil_r.
  - right. destruct (inPhase =? 0)%Z eqn:E.
    + left. split; [exact E | ].
      unfold exec, emitted, dispatch, EnableCmdHandler, bind, ret. rewrite E.
      destruct (Enable env w) as [[a w1] l1]; cbn.
      now rewrite !app_nil_r.
    + right; right. cbn. rewrite E.
      unfold exec, emitted, dispatch, EnableCmdHandler, bind, ret. rewrite E.
      cbn. auto.
  - right. destruct (inItemRef =? MENU_ITEM_ID_ENABLE)%Z eqn:E.
    + left. split; [exact E | ].
      unfold exec, emitted, dispatch, MenuHandlerCallback. rewrite E. auto.
    + right. destruct (inItemRef =? MENU_ITEM_ID_STOP)%Z eqn:E'.
      * left. apply Z.eqb_eq in E'. subst inItemRef.
        split; [reflexivity | split; [reflexivity | ]].
        destruct w as [st d th rv]; destruct st; reflexivity.
      * right. cbn. rewrite E.
        unfold exec, emitted, dispatch, MenuHandlerCallback.
        rewrite E, E'. cbn. auto.
Qed.

Lemma states_eqb_eq (a b : states_t) : states_eqb a b = true <-> a = b.
Proof. destruct a, b; cbn; split; intros H; congruence. Qed.

Ltac tick_cases :=
  unfold exec, emitted in *;
  rewrite ?StateMachine_WAIT_FOR_USER, ?StateMachine_START,
    ?StateMachine_THROTTLE_DOWN, ?StateMachine_WAIT_FOR_IDLE_THROTTLE,
    ?StateMachine_WAIT_FOR_TOUCHDOWN, ?StateMachine_APPLY_REVERSE,
    ?StateMachine_WAIT_FOR_END_OF_REVERSE in *.

(** Split on every test a tick can make. *)
Ltac sensor_cases d env :=
  try destruct d;
  try destruct (throttle_ratio_all env > F32.of_int_0)%f32;
  try destruct (throttle_ratio_all env == F32.of_int_0)%f32;
  try destruct (onground_all env =? TRUE)%Z;
  try destruct (indicated_airspeed2 env > MIN_SPEED_REVERSE_THRUST)%f32;
  try destruct (indicated_airspeed2 env <= MIN_SPEED_REVERSE_THRUST)%f32.

(* ================================================================== *)
(** * Runs *)

Lemma run_cons (c : callback) (env : sensors) (tr : schedule) (w : world) :
  run ((c, env) :: tr) w
  = (fst (run tr (exec (dispatch c) env w)),
     emitted (dispatch c) env w ++ snd (run tr (exec (dispatch c) env w))).
Proof.
  unfold exec, emitted. cbn [run].
  destruct (dispatch c env w) as [[a w1] l1]; cbn [fst snd].
  destruct (run tr w1) as [w2 l2]; reflexivity.
Qed.

Lemma reachable_run (tr : schedule) :
  forall w, reachable w -> reachable (fst (run tr w)).
Proof.
  induction tr as [ | [c env] tr IH]; intros w Hw; [exact Hw | ].
  rewrite run_cons; cbn [fst]. apply IH. now constructor.
Qed.

Lemma hold_calls_app (c : XPLMCommandRef) (l1 l2 : list event) :
  hold_calls c (l1 ++ l2) = hold_calls c l1 ++ hold_calls c l2.
Proof. apply filter_app. Qed.

Lemma count_begin_hold_calls (c : XPLMCommandRef) (l : list event) :
  count (is_begin c) l = count (is_begin c) (hold_calls c l).
Proof.
  unfold count, hold_calls.
  induction l as [ | e l IH]; [reflexivity | ].
  destruct e as [r | c' | c' | t]; cbn; try exact IH;
    destruct c, c'; cbn; try exact IH; now rewrite IH.
Qed.

Lemma count_end_hold_calls (c : XPLMCommandRef) (l : list event) :
  count (is_end c) l = count (is_end c) (hold_calls c l).
Proof.
  unfold count, hold_calls.
  induction l as [ | e l IH]; [reflexivity | ].
  destruct e as [r | c' | c' | t]; cbn; try exact IH;
    destruct c, c'; cbn; try exact IH; now rewrite IH.
Qed.

Lemma visited_cons (c : callback) (env : sensors) (tr : schedule) (w : world) :
  visited ((c, env) :: tr) w
  = CurrentState (exec (dispatch c) env w)
    :: visited tr (exec (dispatch c) env w).
Proof. reflexivity. Qed.

Lemma completes_cycle_cons (c : callback) (env : sensors) (tr : schedule) (w : world) :
  completes_cycle ((c, env) :: tr) w
  = if states_eqb (CurrentState (exec (dispatch c) env w)) WAIT_FOR_USER
    then match tr with [] => true | _ :: _ => false end
    else completes_cycle tr (exec (dispatch c) env w).
Proof. reflexivity. Qed.

Lemma within_cycle_cons (c : callback) (env : sensors) (tr : schedule) (w : world) :
  within_cycle ((c, env) :: tr) w
  = if states_eqb (CurrentState (exec (dispatch c) env w)) WAIT_FOR_USER
    then match tr with [] => true | _ :: _ => false end
    else within_cycle tr (exec (dispatch c) env w).
Proof. reflexivity. Qed.

(** While the manager is busy, operator intents leave the state and both
    holds alone: an activation is refused and a stop only raises the flag. *)
Lemma intent_while_busy (c : callback) (env : sensors) (w : world) :
  is_intent c = true -> CurrentState w <> WAIT_FOR_USER ->
  CurrentState (exec (dispatch c) env w) = CurrentState w
  /\ throttle_down_held (exec (dispatch c) env w) = throttle_down_held w
  /\ reverse_thrust_held (exec (dispatch c) env w) = reverse_thrust_held w
  /\ (DeactivationRequested w = true ->
      DeactivationRequested (exec (dispatch c) env w) = true)
  /\ forall k, hold_calls k (emitted (dispatch c) env w) = [].
Proof.
  intros Hc Hw.
  destruct (dispatch_cases c env w)
    as [[-> _] | [[_ [-> ->]] | [[_ [-> ->]] | [_ [_ [-> ->]]]]]];
    try discriminate; destruct w as [st d th rv]; cbn in Hw.
  - unfold exec, emitted. rewrite Enable_busy by assumption. cbn. auto.
  - unfold exec. rewrite Stop_busy by assumption. cbn. auto.
  - cbn. auto.
Qed.

Lemma intents_while_busy (ops : schedule) :
  forall w,
    forallb (fun ce => is_intent (fst ce)) ops = true ->
    CurrentState w <> WAIT_FOR_USER ->
    CurrentState (fst (run ops w)) = CurrentState w
    /\ throttle_down_held (fst (run ops w)) = throttle_down_held w
    /\ reverse_thrust_held (fst (run ops w)) = reverse_thrust_held w
    /\ forall k, hold_calls k (snd (run ops w)) = [].
Proof.
  induction ops as [ | [c env] ops IH]; intros w Hops Hw.
  - cbn. auto.
  - cbn [forallb fst] in Hops. apply andb_prop in Hops as [Hc Hops].
    destruct (intent_while_busy c env w Hc Hw) as (Hst & Hth & Hrv & _ & Hev).
    rewrite run_cons; cbn [fst snd].
    destruct (IH (exec (dispatch c) env w) Hops) as (Hst' & Hth' & Hrv' & Hev').
    { now rewrite Hst. }
    rewrite Hst', Hth', Hrv'. repeat split; try assumption.
    intros k. unfold hold_calls in *. now rewrite filter_app, Hev, Hev'.
Qed.

(* ================================================================== *)
(** * Activation requested while the manager is busy *)

(** C6: if [Enable] is called while [CurrentState] is not [WAIT_FOR_USER],
    the world (state, deactivation flag and both holds) is unchanged, no data
    reference is read, and the only call made is the advisory
    "Already enabled"; the same holds through either entry point. *)
Theorem Enable_while_busy_is_noop (w : world) (env : sensors) :
  CurrentState w <> WAIT_FOR_USER ->
  Enable env w = (tt, w, [EvSpeak "Already enabled"])
  /\ count is_get_data (emitted Enable env w) = 0%nat
  /\ forall c, is_activation c = true ->
       exec (dispatch c) env w = w
       /\ emitted (dispatch c) env w = [EvSpeak "Already enabled"].
Proof.
  intros Hw. destruct w as [st d th rv]; cbn in Hw.
  assert (E := Enable_busy d th rv env st Hw).
  split; [exact E | ]. split.
  - unfold emitted. now rewrite E.
  - intros c Hc.
    destruct (dispatch_cases c env (mkWorld st d th rv))
      as [[-> _] | [[_ [-> ->]] | [[-> _] | [_ [Hc' _]]]]];
      try discriminate; try congruence.
    unfold exec, emitted. now rewrite E.
Qed.

Lemma Enable_while_busy_is_noop_witness :
  let w := fst (run [(requestActivate, Sample.approach); (tick, Sample.approach)] initial) in
  CurrentState w <> WAIT_FOR_USER
  /\ Enable Sample.too_fast w = (tt, w, [EvSpeak "Already enabled"]).
Proof.
  split.
  - vm_compute. discriminate.
  - apply (Enable_while_busy_is_noop
             (fst (run [(requestActivate, Sample.approach); (tick, Sample.approach)] initial))
             Sample.too_fast).
    vm_compute. discriminate.
Defined.

(* ================================================================== *)
(** * Deactivation requests *)

(** C7: the stop item of the menu does nothing at all in [WAIT_FOR_USER]
    (flag unchanged, state unchanged, nothing spoken); in any other state it
    sets [DeactivationRequested] and changes neither [CurrentState] nor a
    hold, and makes no call into the simulator. *)
Theorem Stop_only_raises_flag (w : world) (env : sensors) :
  (CurrentState w = WAIT_FOR_USER ->
   MenuHandlerCallback MENU_ITEM_ID_STOP env w = (tt, w, []))
  /\ (CurrentState w <> WAIT_FOR_USER ->
      MenuHandlerCallback MENU_ITEM_ID_STOP env w
      = (tt,
         mkWorld (CurrentState w) true
                 (throttle_down_held w) (reverse_thrust_held w),
         [])).
Proof.
  destruct w as [st d th rv]; cbn [CurrentState throttle_down_held reverse_thrust_held].
  split; intros Hw.
  - subst st. reflexivity.
  - now apply Stop_busy.
Qed.

Lemma Stop_only_raises_flag_witness :
  MenuHandlerCallback MENU_ITEM_ID_STOP Sample.approach initial = (tt, initial, [])
  /\ MenuHandlerCallback MENU_ITEM_ID_STOP Sample.approach
       (mkWorld WAIT_FOR_IDLE_THROTTLE false true false)
     = (tt, mkWorld WAIT_FOR_IDLE_THROTTLE true true false, []).
Proof.
  split.
  - apply (Stop_only_raises_flag initial Sample.approach). reflexivity.
  - apply (Stop_only_raises_flag
             (mkWorld WAIT_FOR_IDLE_THROTTLE false true false) Sample.approach).
    discriminate.
Defined.

(** C3: in [WAIT_FOR_IDLE_THROTTLE], [WAIT_FOR_TOUCHDOWN] and
    [WAIT_FOR_END_OF_REVERSE], a tick that finds [DeactivationRequested] set
    goes to [WAIT_FOR_USER], ends the state's hold (throttle down for the
    first, reverse thrust for the other two) with a single end call and no
    sensor read, and clears the flag in the same step, whatever the sensors
    say; the other hold is untouched, and if the hold was not active the
    holds are as before. *)
Theorem deactivation_consumed_in_one_tick (w : world) (env : sensors) :
  DeactivationRequested w = true ->
  (CurrentState w = WAIT_FOR_IDLE_THROTTLE ->
   StateMachine env w
   = (STATE_MACHINE_EXECUTION_INTERVAL,
      mkWorld WAIT_FOR_USER false false (reverse_thrust_held w),
      [EvCommandEnd ThrottleDownCmd]))
  /\ (CurrentState w = WAIT_FOR_TOUCHDOWN
      \/ CurrentState w = WAIT_FOR_END_OF_REVERSE ->
      StateMachine env w
      = (STATE_MACHINE_EXECUTION_INTERVAL,
         mkWorld WAIT_FOR_USER false (throttle_down_held w) false,
         [EvCommandEnd ReverseThrustCmd])).
Proof.
  destruct w as [st d th rv];
    cbn [CurrentState DeactivationRequested throttle_down_held reverse_thrust_held].
  intros ->. split.
  - intros ->. now rewrite StateMachine_WAIT_FOR_IDLE_THROTTLE.
  - intros [-> | ->].
    + now rewrite StateMachine_WAIT_FOR_TOUCHDOWN.
    + now rewrite StateMachine_WAIT_FOR_END_OF_REVERSE.
Qed.

Lemma deactivation_consumed_in_one_tick_witness :
  StateMachine Sample.approach (mkWorld WAIT_FOR_IDLE_THROTTLE true true false)
  = (STATE_MACHINE_EXECUTION_INTERVAL, initial, [EvCommandEnd ThrottleDownCmd])
  /\ StateMachine Sample.approach_idle (mkWorld WAIT_FOR_TOUCHDOWN true false false)
     = (STATE_MACHINE_EXECUTION_INTERVAL, initial, [EvCommandEnd ReverseThrustCmd])
  /\ StateMachine Sample.rollout_80 (mkWorld WAIT_FOR_END_OF_REVERSE true false true)
     = (STATE_MACHINE_EXECUTION_INTERVAL, initial, [EvCommandEnd ReverseThrustCmd]).
Proof.
  split; [ | split].
  - apply (deactivation_consumed_in_one_tick
             (mkWorld WAIT_FOR_IDLE_THROTTLE true true false) Sample.approach);
      reflexivity.
  - apply (deactivation_consumed_in_one_tick
             (mkWorld WAIT_FOR_TOUCHDOWN true false false) Sample.approach_idle);
      [reflexivity | left; reflexivity].
  - apply (deactivation_consumed_in_one_tick
             (mkWorld WAIT_FOR_END_OF_REVERSE true false true) Sample.rollout_80);
      [reflexivity | right; reflexivity].
Defined.

(* ================================================================== *)
(** * Leaving [START] *)

Lemma zero_not_positive (x : F32.float) :
  (x == F32.of_int_0)%f32 = true -> (x > F32.of_int_0)%f32 = false.
Proof.
  intros H. apply eq_zero_iff in H as [s ->]. reflexivity.
Qed.

(** C5: from [START], a tick that reads a throttle ratio equal to 0 goes
    straight to [WAIT_FOR_TOUCHDOWN] and makes no call but the sensor read;
    a tick that reads a positive ratio goes to [THROTTLE_DOWN], and then,
    whatever the operator does in between and whatever the sensors say, the
    next tick begins the throttle-down hold and goes to
    [WAIT_FOR_IDLE_THROTTLE]. *)
Theorem START_throttle_paths (w : world) (env : sensors) :
  CurrentState w = START ->
  ((throttle_ratio_all env == F32.of_int_0)%f32 = true ->
   StateMachine env w
   = (STATE_MACHINE_EXECUTION_INTERVAL,
      mkWorld WAIT_FOR_TOUCHDOWN (DeactivationRequested w)
              (throttle_down_held w) (reverse_thrust_held w),
      [EvGetData ThrottleRatioRef]))
  /\ ((throttle_ratio_all env > F32.of_int_0)%f32 = true ->
      StateMachine env w
      = (STATE_MACHINE_EXECUTION_INTERVAL,
         mkWorld THROTTLE_DOWN (DeactivationRequested w)
                 (throttle_down_held w) (reverse_thrust_held w),
         [EvGetData ThrottleRatioRef])
      /\ forall (ops : schedule) (env' : sensors),
          forallb (fun ce => is_intent (fst ce)) ops = true ->
          let w1 := fst (run ops (exec StateMachine env w)) in
          CurrentState w1 = THROTTLE_DOWN
          /\ hold_calls ThrottleDownCmd (snd (run ops (exec StateMachine env w))) = []
          /\ CurrentState (exec StateMachine env' w1) = WAIT_FOR_IDLE_THROTTLE
          /\ emitted StateMachine env' w1 = [EvCommandBegin ThrottleDownCmd]
          /\ throttle_down_held (exec StateMachine env' w1) = true).
Proof.
  destruct w as [st d th rv];
    cbn [CurrentState DeactivationRequested throttle_down_held reverse_thrust_held].
  intros ->. split.
  - intros H. rewrite StateMachine_START, (zero_not_positive _ H). reflexivity.
  - intros H. unfold exec. rewrite StateMachine_START, H. cbn [fst snd].
    split; [reflexivity | ]. intros ops env' Hops.
    destruct (intents_while_busy ops (mkWorld THROTTLE_DOWN d th rv) Hops)
      as (Hst & _ & _ & Hev); [discriminate | ].
    cbn [CurrentState] in Hst.
    destruct (fst (run ops (mkWorld THROTTLE_DOWN d th rv))) as [st1 d1 th1 rv1].
    cbn in Hst. subst st1. cbv zeta. unfold emitted.
    rewrite StateMachine_THROTTLE_DOWN. cbn. repeat split. apply Hev.
Qed.

Lemma START_throttle_paths_witness :
  StateMachine Sample.approach_idle (mkWorld START false false false)
  = (STATE_MACHINE_EXECUTION_INTERVAL, mkWorld WAIT_FOR_TOUCHDOWN false false false,
     [EvGetData ThrottleRatioRef])
  /\ StateMachine Sample.approach (mkWorld START false false false)
     = (STATE_MACHINE_EXECUTION_INTERVAL, mkWorld THROTTLE_DOWN false false false,
        [EvGetData ThrottleRatioRef]).
Proof.
  split.
  - apply (START_throttle_paths (mkWorld START false false false) Sample.approach_idle);
      reflexivity.
  - apply (START_throttle_paths (mkWorld START false false false) Sample.approach);
      reflexivity.
Defined.

(** Once the manager waits for touch down, the throttle-down command is not
    touched again before the return to [WAIT_FOR_USER]. *)
Lemma no_throttle_down_from_touchdown_wait (tr : schedule) :
  forall w,
    within_cycle tr w = true ->
    match CurrentState w with
    | WAIT_FOR_TOUCHDOWN | APPLY_REVERSE | WAIT_FOR_END_OF_REVERSE =>
        hold_calls ThrottleDownCmd (snd (run tr w)) = []
    | _ => True
    end.
Proof.
  induction tr as [ | [c env] tr IH]; intros w Hc.
  - destruct (CurrentState w); exact I || reflexivity.
  - rewrite within_cycle_cons in Hc. rewrite run_cons.
    cbn [snd]. rewrite hold_calls_app.
    specialize (IH (exec (dispatch c) env w)).
    destruct (is_intent c) eqn:Hi.
    + destruct (states_eqb (CurrentState w) WAIT_FOR_USER) eqn:Hw.
      * apply states_eqb_eq in Hw. now rewrite Hw.
      * assert (Hw' : CurrentState w <> WAIT_FOR_USER).
        { intros E. apply states_eqb_eq in E. congruence. }
        destruct (intent_while_busy c env w Hi Hw') as (Hst & _ & _ & _ & Hev).
        rewrite Hev, Hst in *. rewrite Hw in Hc. exact (IH Hc).
    + destruct c; try discriminate Hi.
      destruct (dispatch_cases FlightLoop env w)
        as [[_ [E1 E2]] | [[E _] | [[E _] | [E _]]]]; try discriminate E.
      rewrite E1, E2 in *. clear E1 E2.
      destruct w as [st d th rv]; destruct st; cbn [CurrentState]; try exact I.
      all: tick_cases.
      all: sensor_cases d env.
      all: cbn [fst snd CurrentState states_eqb states_to_Z Z.eqb] in Hc, IH |- *.
      all: try (destruct tr; [reflexivity | discriminate Hc]).
      all: exact (IH Hc).
Qed.

(** C10: from [START], every throttle ratio that compares [<= 0], negative
    values included, sends the tick to [WAIT_FOR_TOUCHDOWN]; the tick makes
    no call but the sensor read, so the throttle-down hold is not begun, and
    it is not begun later in the cycle either. *)
Theorem START_nonpositive_throttle (w : world) (env : sensors) :
  CurrentState w = START ->
  (throttle_ratio_all env <= F32.of_int_0)%f32 = true ->
  StateMachine env w
  = (STATE_MACHINE_EXECUTION_INTERVAL,
     mkWorld WAIT_FOR_TOUCHDOWN (DeactivationRequested w)
             (throttle_down_held w) (reverse_thrust_held w),
     [EvGetData ThrottleRatioRef])
  /\ count (is_begin ThrottleDownCmd) (emitted StateMachine env w) = 0%nat
  /\ forall tr,
       within_cycle tr (exec StateMachine env w) = true ->
       count (is_begin ThrottleDownCmd) (snd (run tr (exec StateMachine env w)))
       = 0%nat.
Proof.
  destruct w as [st d th rv];
    cbn [CurrentState DeactivationRequested throttle_down_held reverse_thrust_held].
  intros -> H. unfold emitted, exec.
  rewrite StateMachine_START, (le_excludes_gt _ _ H).
  split; [reflexivity | split; [reflexivity | ]].
  intros tr Htr. cbn [fst snd] in *.
  rewrite count_begin_hold_calls.
  now rewrite (no_throttle_down_from_touchdown_wait tr _ Htr).
Qed.

Lemma START_nonpositive_throttle_witness :
  (Sample.f_minus_half <= F32.of_int_0)%f32 = true
  /\ StateMachine Sample.throttle_negative (mkWorld START false false false)
     = (STATE_MACHINE_EXECUTION_INTERVAL, mkWorld WAIT_FOR_TOUCHDOWN false false false,
        [EvGetData ThrottleRatioRef]).
Proof.
  split; [reflexivity | ].
  apply (START_nonpositive_throttle (mkWorld START false false false)
           Sample.throttle_negative); reflexivity.
Defined.

(* ================================================================== *)
(** * The advisory text *)

Lemma Errors_text_advisory (env : sensors) :
  Errors_text (indicated_airspeed2 env) (flap1_deg_0 env)
              (deploy_ratio_0 env) (y_agl env)
  = advisory (fun v => violation_reported v env).
Proof.
  unfold Errors_text, advisory, strcat_s; cbn [fold_right all_violations violation_reported].
  destruct (indicated_airspeed2 env > MAX_AIRSPEED)%f32,
           (flap1_deg_0 env < MIN_FLAP_ANGLE)%f32,
           (deploy_ratio_0 env != GEAR_DOWN_RATIO)%f32,
           (y_agl env > MAX_ALTITUDE)%f32; reflexivity.
Qed.

(** Whatever is reported, the text fits the 256-byte buffer with its
    terminator, so no [strcat_s] can fail. *)
Lemma advisory_fits (r : violation -> bool) :
  (String.length (advisory r) < 256)%nat.
Proof.
  unfold advisory; cbn [fold_right all_violations].
  destruct (r AirspeedTooHigh), (r FlapsTooLow), (r GearNotDown),
           (r AltitudeTooHigh); cbn; lia.
Qed.

(** A label's text occurs in the advisory exactly when it was reported: the
    four texts do not overlap. *)
Lemma occurs_advisory (r : violation -> bool) (v : violation) :
  occurs (violation_text v) (advisory r) = r v.
Proof.
  unfold advisory; cbn [fold_right all_violations].
  destruct (r AirspeedTooHigh) eqn:E1, (r FlapsTooLow) eqn:E2,
           (r GearNotDown) eqn:E3, (r AltitudeTooHigh) eqn:E4;
    destruct v; rewrite ?E1, ?E2, ?E3, ?E4; vm_compute; reflexivity.
Qed.

(** The advisory is empty exactly when nothing was reported. *)
Lemma advisory_nonempty (r : violation -> bool) :
  (0 <? String.length (advisory r))%nat = existsb r all_violations.
Proof.
  unfold advisory; cbn [fold_right all_violations existsb].
  destruct (r AirspeedTooHigh), (r FlapsTooLow), (r GearNotDown),
           (r AltitudeTooHigh); reflexivity.
Qed.

(** The manager is armed exactly when the four landing conditions hold. *)
Lemma eligible_iff (env : sensors) :
  eligible env = true <-> forall v, predicate_holds v env = true.
Proof.
  unfold eligible, conditions_met. rewrite !andb_true_iff. split.
  - intros [[[H1 H2] H3] H4] v. destruct v; assumption.
  - intros H. repeat split.
    + exact (H AirspeedTooHigh).
    + exact (H FlapsTooLow).
    + exact (H GearNotDown).
    + exact (H AltitudeTooHigh).
Qed.

(** What a refused activation speaks: the labels whose test fired. *)
Lemma spoken_after_refusal (env : sensors) (d th rv : bool) (v : violation) :
  eligible env = false ->
  spoken (emitted Enable env (mkWorld WAIT_FOR_USER d th rv)) v
  = violation_reported v env.
Proof.
  intros He. unfold emitted. rewrite Enable_WAIT_FOR_USER, He. cbn [snd].
  rewrite Errors_text_advisory, advisory_nonempty.
  destruct (existsb _ all_violations) eqn:Ex.
  - unfold spoken. cbn [existsb app]. now rewrite occurs_advisory, orb_false_r.
  - cbn. symmetry.
    destruct (violation_reported v env) eqn:Ev; [ | reflexivity].
    rewrite <- Ex. symmetry. apply existsb_exists. exists v.
    split; [ | exact Ev]. destruct v; cbn; auto.
Qed.

(** A reported label is a failed condition; the converse needs the reading
    to be a number. *)
Lemma reported_fails (v : violation) (env : sensors) :
  violation_reported v env = true -> predicate_holds v env = false.
Proof.
  destruct v; cbn [violation_reported predicate_holds]; intros H.
  - destruct (indicated_airspeed2 env <= MAX_AIRSPEED)%f32 eqn:E; [ | reflexivity].
    apply le_excludes_gt in E. congruence.
  - destruct (flap1_deg_0 env >= MIN_FLAP_ANGLE)%f32 eqn:E; [ | reflexivity].
    apply ge_excludes_lt in E. congruence.
  - unfold F32.ne in H. unfold F32.eq. now apply negb_true_iff.
  - destruct (y_agl env <= MAX_ALTITUDE)%f32 eqn:E; [ | reflexivity].
    apply le_excludes_gt in E. congruence.
Qed.

Lemma reported_iff_fails (v : violation) (env : sensors) :
  ordered_readings env = true ->
  violation_reported v env = negb (predicate_holds v env).
Proof.
  unfold ordered_readings. rewrite !andb_true_iff, !negb_true_iff.
  intros [[H1 H2] H3].
  destruct v; cbn [violation_reported predicate_holds].
  - now apply gt_not_le.
  - now apply lt_not_ge.
  - reflexivity.
  - now apply gt_not_le.
Qed.

(** On readings that are numbers, the four float tests of [Enable] are the
    conditions of the specification on the values. *)
Lemma predicate_holds_on_value (v : violation) (env : sensors) :
  number_readings env = true ->
  predicate_holds v env = condition_on_value v env.
Proof.
  unfold number_readings. cbn [forallb]. rewrite !andb_true_iff.
  intros ([Va Fa] & [Vf Ff] & [Vg Fg] & [Vh Fh] & _).
  destruct v; cbn [predicate_holds condition_on_value].
  - now rewrite (le_ulps _ MAX_AIRSPEED Va eq_refl Fa eq_refl).
  - unfold F32.ge. fold (F32.le MIN_FLAP_ANGLE (flap1_deg_0 env)).
    now rewrite (le_ulps MIN_FLAP_ANGLE _ eq_refl Vf eq_refl Ff).
  - now rewrite (eq_ulps _ GEAR_DOWN_RATIO Vg eq_refl Fg eq_refl).
  - now apply le_MAX_ALTITUDE.
Qed.

(* ================================================================== *)
(** * The activation decision *)

(** Scenario B of the specification: 170 kt with everything else nominal is
    refused, and exactly "Airspeed too high" is spoken. *)
Example refusal_too_fast :
  Enable Sample.too_fast initial
  = (tt, initial,
     [EvGetData IndicatedAirSpeedRef; EvGetData FlapsAngleRef;
      EvGetData GearDeployRatioRef; EvGetData AltitudeAboveGroundRef;
      EvSpeak " Airspeed too high"])
  /\ spoken_set (emitted Enable Sample.too_fast initial) = [AirspeedTooHigh].
Proof. split; reflexivity. Qed.

(** X17: for every snapshot in which the airspeed, the flap angle and the
    altitude are not NaN, [Enable] in [WAIT_FOR_USER] does what the
    specification says: it goes to [START] if and only if airspeed <= 160,
    flap angle >= 18, gear ratio == 1.0 and altitude <= 152.4 all hold, and
    otherwise stays in [WAIT_FOR_USER] and speaks exactly the labels of the
    failed conditions.  For every snapshot whatsoever, a refusal makes the
    four reads and then one [XPLMSpeakString] call with the texts of the
    labels whose own test fired (airspeed > 160, flap < 18, gear != 1.0,
    altitude > 152.4), in that order, or no such call when none fired.  On
    readings that are numbers the four float tests are the four conditions
    on the values, 152.4 included. *)
Theorem activation_decision (env : sensors) (w : world) :
  CurrentState w = WAIT_FOR_USER ->
  (CurrentState (exec Enable env w) = START
   <-> forall v, predicate_holds v env = true)
  /\ ((exists v, predicate_holds v env = false) ->
      CurrentState (exec Enable env w) = WAIT_FOR_USER
      /\ (forall v, spoken (emitted Enable env w) v = violation_reported v env)
      /\ emitted Enable env w
         = Enable_reads
           ++ if existsb (fun v => violation_reported v env) all_violations
              then [EvSpeak (advisory (fun v => violation_reported v env))]
              else [])
  /\ (ordered_readings env = true -> activation_as_specified env w)
  /\ (number_readings env = true ->
      forall v, predicate_holds v env = condition_on_value v env).
Proof.
  destruct w as [st d th rv]; cbn [CurrentState]; intros ->.
  assert (Hstart : CurrentState (exec Enable env (mkWorld WAIT_FOR_USER d th rv)) = START
                   <-> forall v, predicate_holds v env = true).
  { rewrite <- eligible_iff. unfold exec. rewrite Enable_WAIT_FOR_USER.
    destruct (eligible env); cbn; split; congruence. }
  assert (Hrefuse : (exists v, predicate_holds v env = false) ->
                    eligible env = false).
  { intros [v Hv]. destruct (eligible env) eqn:He; [ | reflexivity].
    rewrite eligible_iff in He. specialize (He v). congruence. }
  assert (Hidle : eligible env = false ->
                  CurrentState (exec Enable env (mkWorld WAIT_FOR_USER d th rv))
                  = WAIT_FOR_USER).
  { intros He. unfold exec. now rewrite Enable_WAIT_FOR_USER, He. }
  split; [exact Hstart | split; [ | split]].
  - intros Hex. split; [auto | split].
    + intros v. apply spoken_after_refusal; auto.
    + unfold emitted. rewrite Enable_WAIT_FOR_USER, (Hrefuse Hex). cbn [snd].
      now rewrite Errors_text_advisory, advisory_nonempty.
  - intros Hord. split; [exact Hstart | ]. intros Hex. split; [auto | ].
    intros v.
    rewrite (spoken_after_refusal env d th rv v (Hrefuse Hex)).
    rewrite (reported_iff_fails v env Hord).
    apply negb_true_iff.
  - intros Hnum v. now apply predicate_holds_on_value.
Qed.

Lemma activation_decision_witness :
  ordered_readings Sample.too_fast = true
  /\ activation_as_specified Sample.too_fast initial
  /\ (CurrentState (exec Enable Sample.approach initial) = START
      <-> forall v, predicate_holds v Sample.approach = true).
Proof.
  split; [reflexivity | split].
  - apply (activation_decision Sample.too_fast initial); reflexivity.
  - apply (activation_decision Sample.approach initial); reflexivity.
Defined.

(** C1: the header of [Main.cpp] promises voice guidance as to which
    conditions are not met, which is what the claim states, and the code
    misses it on a NaN: [IndicatedAirSpeed > MAX_AIRSPEED] is not the
    negation of [IndicatedAirSpeed <= MAX_AIRSPEED] there, and likewise for
    the flap angle and the altitude.  On the snapshot with a NaN airspeed
    and everything else nominal, the airspeed condition fails, the
    activation is refused, and [Enable] makes its four reads and speaks
    nothing, so the set spoken is empty while the set of failed conditions
    is not.  In general, whenever the airspeed, the flap angle or the
    altitude reads NaN, its condition fails, the activation is refused and
    its label is not among those spoken. *)
Theorem Enable_does_not_report_nan_reading :
  (CurrentState initial = WAIT_FOR_USER
   /\ Enable Sample.airspeed_nan initial = (tt, initial, Enable_reads)
   /\ predicate_holds AirspeedTooHigh Sample.airspeed_nan = false
   /\ spoken_set (emitted Enable Sample.airspeed_nan initial) = []
   /\ ~ activation_as_specified Sample.airspeed_nan initial)
  /\ (forall env w v,
        CurrentState w = WAIT_FOR_USER ->
        v <> GearNotDown ->
        F32.is_nan (reading v env) = true ->
        predicate_holds v env = false
        /\ exec Enable env w = w
        /\ spoken (emitted Enable env w) v = false).
Proof.
  split.
  - repeat split; try reflexivity.
    intros [_ H]. destruct H as [_ H].
    + exists AirspeedTooHigh. reflexivity.
    + destruct (H AirspeedTooHigh) as [_ H']. specialize (H' eq_refl).
      vm_compute in H'. discriminate H'.
  - intros env [st d th rv] v; cbn [CurrentState]; intros -> Hv Hnan.
    assert (Hp : predicate_holds v env = false
                 /\ violation_reported v env = false).
    { destruct v; try (now elim Hv); cbn [reading] in Hnan;
        cbn [predicate_holds violation_reported].
      - destruct (indicated_airspeed2 env); try discriminate Hnan.
        split; reflexivity.
      - destruct (flap1_deg_0 env); try discriminate Hnan.
        split; reflexivity.
      - destruct (y_agl env); try discriminate Hnan.
        split; reflexivity. }
    destruct Hp as [Hp Hr].
    assert (He : eligible env = false).
    { destruct (eligible env) eqn:He; [ | reflexivity].
      rewrite eligible_iff in He. specialize (He v). congruence. }
    split; [exact Hp | split].
    + unfold exec. now rewrite Enable_WAIT_FOR_USER, He.
    + now rewrite (spoken_after_refusal env d th rv v He).
Qed.

Lemma Enable_does_not_report_nan_reading_witness :
  F32.is_nan (reading AirspeedTooHigh Sample.airspeed_nan) = true
  /\ predicate_holds AirspeedTooHigh Sample.airspeed_nan = false
  /\ exec Enable Sample.airspeed_nan initial = initial
  /\ spoken (emitted Enable Sample.airspeed_nan initial) AirspeedTooHigh = false.
Proof.
  split; [reflexivity | ].
  apply (proj2 Enable_does_not_report_nan_reading
           Sample.airspeed_nan initial AirspeedTooHigh);
    [reflexivity | discriminate | reflexivity].
Defined.

(* ================================================================== *)
(** * The gear test *)

(** The floats next to 1.0 on either side, 2^-24 below and 2^-23 above. *)
Example neighbours_of_one :
  (F32.scaled 24 GEAR_DOWN_RATIO - F32.scaled 24 Sample.f1_pred = 1
   /\ F32.scaled 24 Sample.f1_succ - F32.scaled 24 GEAR_DOWN_RATIO = 2)%Z
  /\ (Sample.f1_pred == GEAR_DOWN_RATIO)%f32 = false
  /\ (Sample.f1_succ == GEAR_DOWN_RATIO)%f32 = false
  /\ (Sample.f0_999 == GEAR_DOWN_RATIO)%f32 = false.
Proof. repeat split. Qed.



(* ================================================================== *)
(** * Holds follow the state *)


Lemma holds_match_state_step (c : callback) (env : sensors) (w : world) :
  holds_match_state w = true ->
  holds_match_state (exec (dispatch c) env w) = true.
Proof.
  intros Hw.
  destruct (dispatch_cases c env w)
    as [[_ [-> _]] | [[_ [-> _]] | [[_ [-> _]] | [_ [_ [-> _]]]]]];
    [ | | | exact Hw].
  - destruct w as [st d th rv]; destruct st; tick_cases.
    all: sensor_cases d env.
    all: destruct th, rv; try discriminate Hw; reflexivity.
  - destruct w as [st d th rv]. unfold exec.
    destruct st; try (rewrite Enable_busy by discriminate; exact Hw).
    rewrite Enable_WAIT_FOR_USER. destruct (eligible env); [ | exact Hw].
    destruct th, rv; try discriminate Hw; reflexivity.
  - destruct w as [st d th rv]. unfold exec.
    destruct st; try (rewrite Stop_busy by discriminate); exact Hw.
Qed.

Lemma reachable_holds_match_state (w : world) :
  reachable w -> holds_match_state w = true.
Proof.
  induction 1 as [ | c env w _ IH]; [reflexivity | ].
  now apply holds_match_state_step.
Qed.

(** C2: in every world reachable from the initial one under any
    interleaving of ticks and operator intents, [CurrentState] is never
    [WAIT_FOR_USER] while the throttle-down hold or the reverse-thrust hold
    is active; and a tick that enters [WAIT_FOR_USER] ends, in that same
    tick, every hold that was active before it. *)
Theorem idle_means_no_hold (w : world) :
  reachable w ->
  (CurrentState w = WAIT_FOR_USER ->
   throttle_down_held w = false /\ reverse_thrust_held w = false)
  /\ (forall env c,
        CurrentState (exec StateMachine env w) = WAIT_FOR_USER ->
        held c w = true ->
        In (EvCommandEnd c) (emitted StateMachine env w)
        /\ held c (exec StateMachine env w) = false).
Proof.
  intros Hr. apply reachable_holds_match_state in Hr.
  destruct w as [st d th rv]. split.
  - cbn [CurrentState throttle_down_held reverse_thrust_held]. intros ->.
    destruct th, rv; try discriminate Hr; auto.
  - intros env c. destruct st; tick_cases.
    all: sensor_cases d env.
    all: cbn [fst snd CurrentState]; try discriminate.
    all: intros _; destruct c, th, rv; try discriminate Hr;
      cbn; try discriminate; auto.
Qed.

Lemma idle_means_no_hold_witness :
  let w := fst (run Sample.full_landing initial) in
  CurrentState w = WAIT_FOR_USER
  /\ throttle_down_held w = false /\ reverse_thrust_held w = false.
Proof.
  split; [reflexivity | ].
  apply (idle_means_no_hold (fst (run Sample.full_landing initial))).
  - apply reachable_run. apply reachable_initial.
  - reflexivity.
Defined.

(* ================================================================== *)
(** * The reverse-thrust hold over an activation cycle *)

(** Scenarios A and C of the specification, flown in one run. *)
Example full_landing_trace :
  visited Sample.full_landing initial
  = [START; THROTTLE_DOWN; WAIT_FOR_IDLE_THROTTLE; WAIT_FOR_TOUCHDOWN;
     APPLY_REVERSE; WAIT_FOR_END_OF_REVERSE; WAIT_FOR_USER]
  /\ filter (fun e => negb (is_get_data e)) (snd (run Sample.full_landing initial))
     = [EvCommandBegin ThrottleDownCmd; EvCommandEnd ThrottleDownCmd;
        EvCommandBegin ReverseThrustCmd; EvCommandEnd ReverseThrustCmd].
Proof. split; reflexivity. Qed.


(** From [WAIT_FOR_USER] a callback stays there or goes to [START]. *)
Lemma callback_from_idle (c : callback) (env : sensors) (w : world) :
  CurrentState w = WAIT_FOR_USER ->
  CurrentState (exec (dispatch c) env w) = WAIT_FOR_USER
  \/ CurrentState (exec (dispatch c) env w) = START.
Proof.
  destruct w as [st d th rv]; cbn [CurrentState]; intros ->.
  destruct (dispatch_cases c env (mkWorld WAIT_FOR_USER d th rv))
    as [[_ [-> _]] | [[_ [-> _]] | [[_ [-> _]] | [_ [_ [-> _]]]]]];
    try (left; reflexivity).
  unfold exec. rewrite Enable_WAIT_FOR_USER.
  destruct (eligible env); [right | left]; reflexivity.
Qed.

(** Operator intents never call a command. *)
Lemma intent_makes_no_command_call (c : callback) (env : sensors) (w : world) :
  is_intent c = true ->
  forall e, is_command_call e = true -> ~ In e (emitted (dispatch c) env w).
Proof.
  intros Hi e He Hin.
  destruct (dispatch_cases c env w)
    as [[-> _] | [[_ [_ E]] | [[_ [_ E]] | [_ [_ [_ E]]]]]];
    try discriminate Hi; rewrite E in Hin; try contradiction.
  destruct w as [st d th rv]. unfold emitted in Hin.
  destruct st; try (rewrite Enable_busy in Hin by discriminate;
                    destruct Hin as [<- | []]; discriminate He).
  rewrite Enable_WAIT_FOR_USER in Hin.
  destruct (eligible env); cbn [snd] in Hin.
  - repeat (destruct Hin as [<- | Hin]; [discriminate He | ]). contradiction.
  - apply in_app_or in Hin. destruct Hin as [Hin | Hin].
    + repeat (destruct Hin as [<- | Hin]; [discriminate He | ]). contradiction.
    + destruct (0 <? String.length _)%nat; [ | contradiction].
      destruct Hin as [<- | []]. discriminate He.
Qed.

(** The reverse-thrust calls between a busy world and the return to
    [WAIT_FOR_USER], by the state the run starts in and the way it ends. *)
Lemma world_before_last_cons (c : callback) (env : sensors) (tr : schedule) (w : world) :
  completes_cycle tr (exec (dispatch c) env w) = true ->
  world_before_last ((c, env) :: tr) w
  = world_before_last tr (exec (dispatch c) env w).
Proof. destruct tr; [discriminate | reflexivity]. Qed.

Lemma reverse_calls_by_exit (tr : schedule) :
  forall w,
    completes_cycle tr w = true ->
    match CurrentState w with
    | WAIT_FOR_USER => True
    | WAIT_FOR_END_OF_REVERSE =>
        hold_calls ReverseThrustCmd (snd (run tr w))
        = [EvCommandEnd ReverseThrustCmd]
    | _ =>
        if reaches_reverse tr w
        then hold_calls ReverseThrustCmd (snd (run tr w))
             = [EvCommandBegin ReverseThrustCmd; EvCommandEnd ReverseThrustCmd]
        else if ends_in_touchdown_wait tr w
        then hold_calls ReverseThrustCmd (snd (run tr w))
             = [EvCommandEnd ReverseThrustCmd]
             /\ DeactivationRequested (world_before_last tr w) = true
        else hold_calls ReverseThrustCmd (snd (run tr w)) = []
    end.
Proof.
  induction tr as [ | [c env] tr IH]; intros w Hc; [discriminate Hc | ].
  rewrite completes_cycle_cons in Hc.
  unfold reaches_reverse, ends_in_touchdown_wait.
  rewrite run_cons, visited_cons. cbn [snd existsb]. rewrite hold_calls_app.
  fold (reaches_reverse tr (exec (dispatch c) env w)).
  destruct (states_eqb (CurrentState (exec (dispatch c) env w)) WAIT_FOR_USER)
    eqn:Hidle.
  - (* the last callback of the cycle *)
    destruct tr; [ | discriminate Hc]. clear IH Hc.
    cbn [run snd world_before_last reaches_reverse visited existsb].
    rewrite app_nil_r, orb_false_r.
    destruct (is_intent c) eqn:Hi.
    + destruct (states_eqb (CurrentState w) WAIT_FOR_USER) eqn:Hw.
      * apply states_eqb_eq in Hw. now rewrite Hw.
      * exfalso.
        assert (Hw' : CurrentState w <> WAIT_FOR_USER).
        { intros E. apply states_eqb_eq in E. congruence. }
        destruct (intent_while_busy c env w Hi Hw') as (Hst & _).
        rewrite Hst in Hidle. congruence.
    + destruct c; try discriminate Hi.
      destruct (dispatch_cases FlightLoop env w)
        as [[_ [E1 E2]] | [[E _] | [[E _] | [E _]]]]; try discriminate E.
      rewrite E1, E2 in *. clear E1 E2.
      destruct w as [st d th rv]; destruct st; cbn [CurrentState]; [exact I | ..].
      all: tick_cases.
      all: sensor_cases d env.
      all: cbn in Hidle |- *; try discriminate Hidle; auto.
  - (* the cycle goes on *)
    rewrite (world_before_last_cons c env tr w Hc).
    fold (ends_in_touchdown_wait tr (exec (dispatch c) env w)).
    specialize (IH _ Hc).
    destruct (is_intent c) eqn:Hi.
    + destruct (states_eqb (CurrentState w) WAIT_FOR_USER) eqn:Hw.
      * apply states_eqb_eq in Hw. now rewrite Hw.
      * assert (Hw' : CurrentState w <> WAIT_FOR_USER).
        { intros E. apply states_eqb_eq in E. congruence. }
        destruct (intent_while_busy c env w Hi Hw') as (Hst & _ & _ & _ & Hev).
        rewrite Hev, Hst in *. cbn [app].
        destruct (CurrentState w); cbn [states_eqb states_to_Z Z.eqb orb];
          exact IH.
    + destruct c; try discriminate Hi.
      destruct (dispatch_cases FlightLoop env w)
        as [[_ [E1 E2]] | [[E _] | [[E _] | [E _]]]]; try discriminate E.
      rewrite E1, E2 in *. clear E1 E2.
      destruct w as [st d th rv]; destruct st; cbn [CurrentState]; [exact I | ..].
      all: tick_cases.
      all: sensor_cases d env.
      all: cbn [fst snd CurrentState states_eqb states_to_Z Z.eqb] in Hidle, IH |- *.
      all: try discriminate Hidle.
      all: cbn; try exact IH.
      all: rewrite IH; reflexivity.
Qed.

(** Which callbacks call the reverse-thrust command, in any world. *)
Lemma reverse_calls_by_callback (c : callback) (env : sensors) (w : world) :
  (In (EvCommandBegin ReverseThrustCmd) (emitted (dispatch c) env w)
   <-> CurrentState w <> WAIT_FOR_END_OF_REVERSE
       /\ CurrentState (exec (dispatch c) env w) = WAIT_FOR_END_OF_REVERSE)
  /\ (In (EvCommandEnd ReverseThrustCmd) (emitted (dispatch c) env w)
      <-> (CurrentState w = WAIT_FOR_END_OF_REVERSE
           /\ CurrentState (exec (dispatch c) env w) <> WAIT_FOR_END_OF_REVERSE)
          \/ (is_intent c = false
              /\ CurrentState w = WAIT_FOR_TOUCHDOWN
              /\ DeactivationRequested w = true)).
Proof.
  destruct (is_intent c) eqn:Hi.
  - assert (H : CurrentState (exec (dispatch c) env w) <> WAIT_FOR_END_OF_REVERSE
                \/ CurrentState (exec (dispatch c) env w) = CurrentState w).
    { destruct (states_eqb (CurrentState w) WAIT_FOR_USER) eqn:Hw.
      - left. assert (Ha := callback_from_idle c env w).
        apply states_eqb_eq in Hw. destruct (Ha Hw) as [-> | ->]; discriminate.
      - right. apply (intent_while_busy c env w Hi).
        intros E. apply states_eqb_eq in E. congruence. }
    assert (Hno : forall e, is_command_call e = true ->
                            ~ In e (emitted (dispatch c) env w))
      by (apply intent_makes_no_command_call; exact Hi).
    split; split.
    + intros Hin. now apply Hno in Hin.
    + intros [H1 H2]. destruct H as [H | H]; congruence.
    + intros Hin. now apply Hno in Hin.
    + intros [[H1 H2] | [H1 _]]; [ | discriminate H1].
      exfalso.
      destruct (intent_while_busy c env w Hi) as (Hst & _);
        [rewrite H1; discriminate | congruence].
  - destruct c; try discriminate Hi.
    destruct (dispatch_cases FlightLoop env w)
      as [[_ [E1 E2]] | [[E _] | [[E _] | [E _]]]]; try discriminate E.
    rewrite E1, E2. clear E1 E2.
    destruct w as [st d th rv]; destruct st; tick_cases.
    all: sensor_cases d env.
    all: cbn; intuition (try discriminate; try congruence).
Qed.

(** C4 (as amended): in every reachable world the reverse-thrust hold is
    active exactly when [CurrentState] is [WAIT_FOR_END_OF_REVERSE].  A
    callback begins the hold exactly when it moves the state into
    [WAIT_FOR_END_OF_REVERSE]; it ends the hold exactly when it moves the
    state out of [WAIT_FOR_END_OF_REVERSE], or is the tick that consumes a
    deactivation request in [WAIT_FOR_TOUCHDOWN].  Over an activation cycle
    the hold is therefore begun at most once and ended at most once: a cycle
    that enters [WAIT_FOR_END_OF_REVERSE] makes one begin followed by one
    end; a cycle that returns to [WAIT_FOR_USER] without entering it makes no
    begin, and makes one end call if its last callback is made in
    [WAIT_FOR_TOUCHDOWN] (with the deactivation request pending) and no end
    call at all otherwise. *)
Theorem reverse_hold_per_cycle :
  (forall w, reachable w ->
     (reverse_thrust_held w = true
      <-> CurrentState w = WAIT_FOR_END_OF_REVERSE))
  /\ (forall env0 tr w0,
        is_activation_cycle env0 tr w0 = true ->
        if reaches_reverse tr (exec Enable env0 w0)
        then hold_calls ReverseThrustCmd (cycle_events env0 tr w0)
             = [EvCommandBegin ReverseThrustCmd; EvCommandEnd ReverseThrustCmd]
             /\ count (is_begin ReverseThrustCmd) (cycle_events env0 tr w0) = 1%nat
             /\ count (is_end ReverseThrustCmd) (cycle_events env0 tr w0) = 1%nat
        else (hold_calls ReverseThrustCmd (cycle_events env0 tr w0) = []
              \/ hold_calls ReverseThrustCmd (cycle_events env0 tr w0)
                 = [EvCommandEnd ReverseThrustCmd])
             /\ count (is_begin ReverseThrustCmd) (cycle_events env0 tr w0) = 0%nat
             /\ (count (is_end ReverseThrustCmd) (cycle_events env0 tr w0) <= 1)%nat
             /\ (if ends_in_touchdown_wait tr (exec Enable env0 w0)
                 then hold_calls ReverseThrustCmd (cycle_events env0 tr w0)
                      = [EvCommandEnd ReverseThrustCmd]
                      /\ DeactivationRequested
                           (world_before_last tr (exec Enable env0 w0)) = true
                 else hold_calls ReverseThrustCmd (cycle_events env0 tr w0) = []))
  /\ (forall c env w,
        (In (EvCommandBegin ReverseThrustCmd) (emitted (dispatch c) env w)
         <-> CurrentState w <> WAIT_FOR_END_OF_REVERSE
             /\ CurrentState (exec (dispatch c) env w) = WAIT_FOR_END_OF_REVERSE)
        /\ (In (EvCommandEnd ReverseThrustCmd) (emitted (dispatch c) env w)
            <-> (CurrentState w = WAIT_FOR_END_OF_REVERSE
                 /\ CurrentState (exec (dispatch c) env w)
                    <> WAIT_FOR_END_OF_REVERSE)
                \/ (is_intent c = false
                    /\ CurrentState w = WAIT_FOR_TOUCHDOWN
                    /\ DeactivationRequested w = true))).
Proof.
  split; [ | split].
  - intros w Hr. apply reachable_holds_match_state in Hr.
    destruct w as [st d th rv]; unfold holds_match_state in Hr;
      cbn [CurrentState throttle_down_held reverse_thrust_held] in *.
    apply andb_prop in Hr as [_ Hr]. apply eqb_prop in Hr. rewrite Hr.
    apply states_eqb_eq.
  - intros env0 tr w0 Hcy. unfold is_activation_cycle in Hcy.
    apply andb_prop in Hcy as [Hcy Hc]. apply andb_prop in Hcy as [Hidle Hstart].
    apply states_eqb_eq in Hidle, Hstart.
    assert (Hcalls := reverse_calls_by_exit tr _ Hc). rewrite Hstart in Hcalls.
    assert (Hact : hold_calls ReverseThrustCmd (emitted Enable env0 w0) = []).
    { destruct w0 as [st d th rv]; cbn [CurrentState] in Hidle; subst st.
      unfold exec, emitted in *. rewrite Enable_WAIT_FOR_USER in *.
      destruct (eligible env0); [reflexivity | discriminate Hstart]. }
    rewrite count_begin_hold_calls, count_end_hold_calls.
    unfold cycle_events. rewrite hold_calls_app, Hact. cbn [app].
    destruct (reaches_reverse tr (exec Enable env0 w0)).
    + rewrite Hcalls. repeat split.
    + destruct (ends_in_touchdown_wait tr (exec Enable env0 w0)).
      * destruct Hcalls as [-> Hd]. cbn. repeat split; auto.
      * rewrite Hcalls. cbn. repeat split; auto.
  - intros c env w. apply reverse_calls_by_callback.
Qed.

Lemma reverse_hold_per_cycle_witness :
  (is_activation_cycle Sample.approach (tl Sample.full_landing) initial = true
   /\ hold_calls ReverseThrustCmd
        (cycle_events Sample.approach (tl Sample.full_landing) initial)
      = [EvCommandBegin ReverseThrustCmd; EvCommandEnd ReverseThrustCmd])
  /\ (is_activation_cycle Sample.approach_idle
                          Sample.abandoned_before_touchdown initial = true
      /\ ends_in_touchdown_wait Sample.abandoned_before_touchdown
                                (exec Enable Sample.approach_idle initial) = true
      /\ hold_calls ReverseThrustCmd
           (cycle_events Sample.approach_idle
                         Sample.abandoned_before_touchdown initial)
         = [EvCommandEnd ReverseThrustCmd]).
Proof.
  split; (split; [reflexivity | ]).
  - apply (proj1 (proj2 reverse_hold_per_cycle)
             Sample.approach (tl Sample.full_landing) initial).
    reflexivity.
  - split; [reflexivity | ].
    apply (proj1 (proj2 reverse_hold_per_cycle)
             Sample.approach_idle Sample.abandoned_before_touchdown initial eq_refl).
Defined.

(** C4, the statement of the specification fails on a cycle that is
    abandoned while waiting for touch down: the tick that consumes the
    request ends the reverse-thrust hold, which was never begun. *)
Lemma reverse_hold_as_specified_fails :
  is_activation_cycle Sample.approach_idle Sample.abandoned_before_touchdown initial = true
  /\ visited Sample.abandoned_before_touchdown (exec Enable Sample.approach_idle initial)
     = [WAIT_FOR_TOUCHDOWN; WAIT_FOR_TOUCHDOWN; WAIT_FOR_USER]
  /\ hold_calls ReverseThrustCmd
       (cycle_events Sample.approach_idle Sample.abandoned_before_touchdown initial)
     = [EvCommandEnd ReverseThrustCmd]
  /\ ~ reverse_hold_as_specified Sample.approach_idle
         Sample.abandoned_before_touchdown initial.
Proof.
  repeat split.
  intros H. destruct H as [Hb _]; [reflexivity | ].
  vm_compute in Hb. discriminate Hb.
Qed.

(* ================================================================== *)
(** * A deactivation request that outlives its cycle *)

(** C9: [APPLY_REVERSE] does not look at [DeactivationRequested]: what a
    tick does there is the same with the flag set or clear, and the flag is
    left as it was.  A tick in that state with the flag set and the airspeed
    at or below 60 kt goes to [WAIT_FOR_USER] and leaves the flag set, so a
    reachable world can be idle with the flag raised; from such a world every
    callback keeps the state idle and the flag raised, except an activation
    with eligible readings, which arms the manager and clears the flag. *)
Theorem stale_deactivation_request :
  (forall d th rv env,
     let w' := exec StateMachine env (mkWorld APPLY_REVERSE d th rv) in
     DeactivationRequested w' = d
     /\ CurrentState w'
        = CurrentState (exec StateMachine env (mkWorld APPLY_REVERSE (negb d) th rv))
     /\ emitted StateMachine env (mkWorld APPLY_REVERSE d th rv)
        = emitted StateMachine env (mkWorld APPLY_REVERSE (negb d) th rv))
  /\ (forall w env,
     CurrentState w = APPLY_REVERSE ->
     DeactivationRequested w = true ->
     (indicated_airspeed2 env <= MIN_SPEED_REVERSE_THRUST)%f32 = true ->
     StateMachine env w
     = (STATE_MACHINE_EXECUTION_INTERVAL,
        mkWorld WAIT_FOR_USER true (throttle_down_held w) (reverse_thrust_held w),
        [EvGetData IndicatedAirSpeedRef]))
  /\ (exists w, reachable w
                /\ CurrentState w = WAIT_FOR_USER
                /\ DeactivationRequested w = true)
  /\ (forall w c env,
        CurrentState w = WAIT_FOR_USER ->
        DeactivationRequested w = true ->
        if is_activation c && eligible env
        then CurrentState (exec (dispatch c) env w) = START
             /\ DeactivationRequested (exec (dispatch c) env w) = false
        else CurrentState (exec (dispatch c) env w) = WAIT_FOR_USER
             /\ DeactivationRequested (exec (dispatch c) env w) = true).
Proof.
  split; [ | split; [ | split]].
  - intros d th rv env. unfold exec, emitted.
    rewrite !StateMachine_APPLY_REVERSE.
    destruct (indicated_airspeed2 env > MIN_SPEED_REVERSE_THRUST)%f32;
      repeat split.
  - intros [st d th rv] env;
      cbn [CurrentState DeactivationRequested throttle_down_held reverse_thrust_held].
    intros -> -> H.
    now rewrite StateMachine_APPLY_REVERSE, (le_excludes_gt _ _ H).
  - exists (fst (run Sample.slow_touchdown_with_request initial)).
    split; [ | split; reflexivity].
    apply reachable_run. apply reachable_initial.
  - intros [st d th rv] c env;
      cbn [CurrentState DeactivationRequested]. intros -> ->.
    destruct (dispatch_cases c env (mkWorld WAIT_FOR_USER true th rv))
      as [[-> [-> _]] | [[-> [-> _]] | [[-> [-> _]] | [_ [-> [-> _]]]]]];
      cbn [is_activation andb]; unfold exec.
    + rewrite StateMachine_WAIT_FOR_USER. split; reflexivity.
    + rewrite Enable_WAIT_FOR_USER. destruct (eligible env); split; reflexivity.
    + rewrite Stop_WAIT_FOR_USER. split; reflexivity.
    + split; reflexivity.
Qed.

Lemma stale_deactivation_request_witness :
  CurrentState (mkWorld APPLY_REVERSE true false false) = APPLY_REVERSE
  /\ (indicated_airspeed2 Sample.rollout_55 <= MIN_SPEED_REVERSE_THRUST)%f32 = true
  /\ StateMachine Sample.rollout_55 (mkWorld APPLY_REVERSE true false false)
     = (STATE_MACHINE_EXECUTION_INTERVAL, mkWorld WAIT_FOR_USER true false false,
        [EvGetData IndicatedAirSpeedRef]).
Proof.
  split; [reflexivity | split; [reflexivity | ]].
  apply (proj1 (proj2 stale_deactivation_request)
           (mkWorld APPLY_REVERSE true false false) Sample.rollout_55);
    reflexivity.
Defined.

(* ================================================================== *)
(** * More about single callbacks *)

Lemma dispatch_FlightLoop (env : sensors) (w : world) :
  exec (dispatch FlightLoop) env w = exec StateMachine env w
  /\ emitted (dispatch FlightLoop) env w = emitted StateMachine env w.
Proof.
  destruct (dispatch_cases FlightLoop env w)
    as [[_ H] | [[E _] | [[E _] | [E _]]]]; try discriminate E. exact H.
Qed.

(** X2: whatever the state and the sensors, a tick returns the 0.25 s
    interval, reads at most one data reference, makes at most one command
    call and never speaks; it never raises [DeactivationRequested]; and a
    tick that leaves [CurrentState] as it was leaves the whole world as it
    was and makes no command call. *)
Theorem tick_footprint (env : sensors) (w : world) :
  fst (fst (StateMachine env w)) = STATE_MACHINE_EXECUTION_INTERVAL
  /\ (count is_get_data (emitted StateMachine env w) <= 1)%nat
  /\ (count is_command_call (emitted StateMachine env w) <= 1)%nat
  /\ count is_speak (emitted StateMachine env w) = 0%nat
  /\ (DeactivationRequested (exec StateMachine env w) = true ->
      DeactivationRequested w = true)
  /\ (CurrentState (exec StateMachine env w) = CurrentState w ->
      exec StateMachine env w = w
      /\ count is_command_call (emitted StateMachine env w) = 0%nat).
Proof.
  destruct w as [st d th rv]; destruct st; tick_cases.
  all: sensor_cases d env.
  all: cbn; repeat split; auto; try discriminate.
Qed.

Lemma Enable_effects (env : sensors) (w : world) :
  count is_command_call (emitted Enable env w) = 0%nat
  /\ throttle_down_held (exec Enable env w) = throttle_down_held w
  /\ reverse_thrust_held (exec Enable env w) = reverse_thrust_held w
  /\ (DeactivationRequested (exec Enable env w) = true ->
      DeactivationRequested w = true)
  /\ (CurrentState (exec Enable env w) = CurrentState w
      \/ (CurrentState w = WAIT_FOR_USER
          /\ CurrentState (exec Enable env w) = START)).
Proof.
  destruct w as [st d th rv]. unfold exec, emitted.
  destruct st; try (rewrite Enable_busy by discriminate; cbn; auto 6; fail).
  rewrite Enable_WAIT_FOR_USER.
  destruct (eligible env).
  - cbn. repeat split; auto. discriminate.
  - cbn [fst snd]. rewrite Errors_text_advisory.
    destruct (0 <? String.length _)%nat; cbn; auto 6.
Qed.

(** X8: [Enable] never calls a command and never changes a hold; it never
    raises [DeactivationRequested]; and the only state change it can make
    is from [WAIT_FOR_USER] to [START]. *)
Theorem Enable_footprint (env : sensors) (w : world) :
  count is_command_call (emitted Enable env w) = 0%nat
  /\ throttle_down_held (exec Enable env w) = throttle_down_held w
  /\ reverse_thrust_held (exec Enable env w) = reverse_thrust_held w
  /\ (DeactivationRequested (exec Enable env w) = true ->
      DeactivationRequested w = true)
  /\ (CurrentState (exec Enable env w) = CurrentState w
      \/ (CurrentState w = WAIT_FOR_USER
          /\ CurrentState (exec Enable env w) = START)).
Proof. exact (Enable_effects env w). Qed.

(* ================================================================== *)
(** * Idle until activated *)

(** X1: from [WAIT_FOR_USER], a run without a press of the enable command
    or a choice of the enable item (ticks, stop requests, other menu items,
    the hold and release phases of the command) leaves the world unchanged
    and makes no call into the simulator. *)
Theorem idle_until_activation (tr : schedule) (w : world) :
  CurrentState w = WAIT_FOR_USER ->
  forallb (fun ce => negb (is_activation (fst ce))) tr = true ->
  run tr w = (w, []).
Proof.
  intros Hw. induction tr as [ | [c env] tr IH]; intros Htr; [reflexivity | ].
  cbn [forallb fst] in Htr. apply andb_prop in Htr as [Hc Htr].
  apply negb_true_iff in Hc.
  rewrite run_cons.
  assert (Hstep : exec (dispatch c) env w = w /\ emitted (dispatch c) env w = []).
  { destruct w as [st d th rv]; cbn [CurrentState] in Hw; subst st.
    destruct (dispatch_cases c env (mkWorld WAIT_FOR_USER d th rv))
      as [[_ [-> ->]] | [[E _] | [[_ [-> ->]] | [_ [_ [-> ->]]]]]];
      try congruence; auto. }
  destruct Hstep as [-> ->]. now rewrite (IH Htr).
Qed.

Lemma idle_until_activation_witness :
  run [(tick, Sample.rollout_80); (requestDeactivate, Sample.approach);
       (EnableCommand 1, Sample.approach); (MenuChoice 7, Sample.approach);
       (tick, Sample.approach)] initial
  = (initial, []).
Proof.
  apply (idle_until_activation
           [(tick, Sample.rollout_80); (requestDeactivate, Sample.approach);
            (EnableCommand 1, Sample.approach); (MenuChoice 7, Sample.approach);
            (tick, Sample.approach)] initial); reflexivity.
Defined.

(* ================================================================== *)
(** * The order of the states *)

Lemma callback_advances (c : callback) (env : sensors) (w : world) :
  advances (CurrentState w) (CurrentState (exec (dispatch c) env w)) = true.
Proof.
  destruct (dispatch_cases c env w)
    as [[_ [-> _]] | [[_ [-> _]] | [[_ [-> _]] | [_ [_ [-> _]]]]]].
  - destruct w as [st d th rv]; destruct st; tick_cases.
    all: sensor_cases d env.
    all: reflexivity.
  - destruct (Enable_effects env w) as (_ & _ & _ & _ & [-> | [-> ->]]);
      [ | reflexivity].
    destruct (CurrentState w); reflexivity.
  - destruct w as [st d th rv]; destruct st; reflexivity.
  - destruct (CurrentState w); reflexivity.
Qed.

(** X3: along every run, from any world, each callback leaves the state
    where it is, moves it forward in the order of the enumeration, or
    returns it to [WAIT_FOR_USER]: no state is ever re-entered from a later
    one without passing through [WAIT_FOR_USER]. *)
Theorem states_only_advance (tr : schedule) (w : world) :
  chain (CurrentState w) (visited tr w) = true.
Proof.
  revert w. induction tr as [ | [c env] tr IH]; intros w; [reflexivity | ].
  rewrite visited_cons. cbn [chain].
  now rewrite callback_advances, IH.
Qed.

(* ================================================================== *)
(** * Command calls are well placed *)

(** X5: in every reachable world a callback makes at most one command
    call; it never begins a command that is already held; it never ends the
    throttle-down command unless that command is held; and it ends the
    reverse-thrust command while it is not held only when a deactivation
    request is consumed in [WAIT_FOR_TOUCHDOWN]. *)
Theorem commands_well_placed (c : callback) (env : sensors) (w : world) :
  reachable w ->
  (count is_command_call (emitted (dispatch c) env w) <= 1)%nat
  /\ (forall k, In (EvCommandBegin k) (emitted (dispatch c) env w) ->
                held k w = false)
  /\ (In (EvCommandEnd ThrottleDownCmd) (emitted (dispatch c) env w) ->
      throttle_down_held w = true)
  /\ (In (EvCommandEnd ReverseThrustCmd) (emitted (dispatch c) env w) ->
      reverse_thrust_held w = true
      \/ (CurrentState w = WAIT_FOR_TOUCHDOWN
          /\ DeactivationRequested w = true)).
Proof.
  intros Hr. apply reachable_holds_match_state in Hr.
  destruct (dispatch_cases c env w)
    as [[_ [_ ->]] | [[_ [_ ->]] | [[_ [_ ->]] | [_ [_ [_ ->]]]]]].
  - destruct w as [st d th rv]; destruct st; tick_cases.
    all: sensor_cases d env.
    all: destruct th, rv; try discriminate Hr.
    all: cbn; repeat split; auto.
    all: try (intros k [H | [H | H]]; try discriminate H; try contradiction;
              injection H as <-; reflexivity).
    all: try (intros k [H | H]; try discriminate H; try contradiction;
              injection H as <-; reflexivity).
    all: try (intros [H | [H | H]]; try discriminate H; contradiction).
    all: try (intros [H | H]; try discriminate H; contradiction).
    all: try contradiction.
  - destruct (Enable_effects env w) as (Hn & _).
    assert (Hno : forall e, is_command_call e = true ->
                            ~ In e (emitted Enable env w)).
    { intros e He Hin. unfold count in Hn.
      assert (Hf : In e (filter is_command_call (emitted Enable env w)))
        by (apply filter_In; auto).
      destruct (filter is_command_call (emitted Enable env w));
        [contradiction | discriminate Hn]. }
    rewrite Hn. repeat split; try lia.
    + intros k H. now apply Hno in H.
    + intros H. now apply Hno in H.
    + intros H. now apply Hno in H.
  - cbn. repeat split; auto; contradiction.
  - cbn. repeat split; auto; contradiction.
Qed.

Lemma commands_well_placed_witness :
  let w := fst (run (firstn 5 Sample.full_landing) initial) in
  CurrentState w = APPLY_REVERSE
  /\ In (EvCommandBegin ReverseThrustCmd) (emitted (dispatch tick) Sample.rollout_80 w)
  /\ held ReverseThrustCmd w = false.
Proof.
  split; [reflexivity | split; [right; left; reflexivity | ]].
  apply (commands_well_placed tick Sample.rollout_80
           (fst (run (firstn 5 Sample.full_landing) initial))).
  - apply reachable_run. apply reachable_initial.
  - right; left; reflexivity.
Defined.

(* ================================================================== *)
(** * Operator intents between two ticks *)

Lemma intent_step_busy (c : callback) (env : sensors) (w : world) :
  is_intent c = true -> CurrentState w <> WAIT_FOR_USER ->
  exec (dispatch c) env w
  = mkWorld (CurrentState w) (DeactivationRequested w || is_stop c)
            (throttle_down_held w) (reverse_thrust_held w)
  /\ emitted (dispatch c) env w
     = if is_activation c then [EvSpeak "Already enabled"] else [].
Proof.
  intros Hc Hw. destruct w as [st d th rv]; cbn [CurrentState] in Hw.
  cbn [CurrentState DeactivationRequested throttle_down_held reverse_thrust_held].
  destruct c as [ | inPhase | inItemRef]; [discriminate Hc | | ].
  - cbn [is_stop is_activation]. rewrite orb_false_r.
    unfold exec, emitted, dispatch, EnableCmdHandler, bind, ret.
    destruct (inPhase =? 0)%Z.
    + rewrite (Enable_busy d th rv env st Hw). split; reflexivity.
    + split; reflexivity.
  - cbn [is_stop is_activation]. unfold exec, emitted. cbn [dispatch].
    destruct (Z.eqb_spec inItemRef MENU_ITEM_ID_ENABLE) as [-> | Hne].
    + change (MenuHandlerCallback MENU_ITEM_ID_ENABLE) with Enable.
      rewrite (Enable_busy d th rv env st Hw).
      cbn [Z.eqb MENU_ITEM_ID_ENABLE MENU_ITEM_ID_STOP Pos.eqb].
      rewrite orb_false_r. split; reflexivity.
    + destruct (Z.eqb_spec inItemRef MENU_ITEM_ID_STOP) as [-> | Hns].
      * rewrite (Stop_busy d th rv env st Hw), orb_true_r. split; reflexivity.
      * unfold MenuHandlerCallback.
        apply Z.eqb_neq in Hne, Hns. rewrite Hne, Hns, orb_false_r.
        split; reflexivity.
Qed.

(** X13: while the manager is busy, a series of operator intents amounts to
    this: [DeactivationRequested] is raised if a stop was among them (and
    stays raised if it already was), "Already enabled" is spoken once per
    activation attempt, and nothing else changes; their order and number do
    not matter otherwise. *)
Theorem intents_collapse (ops : schedule) (w : world) :
  CurrentState w <> WAIT_FOR_USER ->
  forallb (fun ce => is_intent (fst ce)) ops = true ->
  run ops w
  = (mkWorld (CurrentState w)
             (DeactivationRequested w || existsb (fun ce => is_stop (fst ce)) ops)
             (throttle_down_held w) (reverse_thrust_held w),
     map (fun _ => EvSpeak "Already enabled")
         (filter (fun ce => is_activation (fst ce)) ops)).
Proof.
  revert w. induction ops as [ | [c env] ops IH]; intros w Hw Hops.
  - cbn. rewrite orb_false_r. now destruct w.
  - cbn [forallb fst] in Hops. apply andb_prop in Hops as [Hc Hops].
    destruct (intent_step_busy c env w Hc Hw) as [Hx He].
    rewrite run_cons, Hx, He, IH by (cbn; assumption).
    cbn [fst snd CurrentState DeactivationRequested throttle_down_held
         reverse_thrust_held existsb filter].
    rewrite orb_assoc. f_equal.
    destruct (is_activation c); reflexivity.
Qed.

Lemma intents_collapse_witness :
  run [(requestActivate, Sample.approach); (requestDeactivate, Sample.approach);
       (EnableCommand 0, Sample.too_fast); (requestDeactivate, Sample.approach)]
      (mkWorld WAIT_FOR_TOUCHDOWN false false false)
  = (mkWorld WAIT_FOR_TOUCHDOWN true false false,
     [EvSpeak "Already enabled"; EvSpeak "Already enabled"]).
Proof.
  apply (intents_collapse
           [(requestActivate, Sample.approach); (requestDeactivate, Sample.approach);
            (EnableCommand 0, Sample.too_fast); (requestDeactivate, Sample.approach)]
           (mkWorld WAIT_FOR_TOUCHDOWN false false false)).
  - discriminate.
  - reflexivity.
Defined.

(* ================================================================== *)
(** * How long a deactivation request can wait *)

Lemma ticks_cons (c : callback) (env : sensors) (tr : schedule) :
  ticks ((c, env) :: tr) = ((if is_intent c then 0 else 1) + ticks tr)%nat.
Proof. unfold ticks. cbn [filter fst]. now destruct (is_intent c). Qed.

(** X6: a deactivation request, once raised while the manager is busy, is
    honoured after a bounded number of ticks, whatever the sensors read and
    whatever the operator does meanwhile: one tick in the three waiting
    states, two from [THROTTLE_DOWN] and [APPLY_REVERSE], three from
    [START].  Until then the sequence goes on; from [THROTTLE_DOWN] the
    throttle-down hold is still begun first. *)
Theorem deactivation_latency (tr : schedule) (w : world) :
  CurrentState w <> WAIT_FOR_USER ->
  DeactivationRequested w = true ->
  (ticks_to_idle_on_request (CurrentState w) <= ticks tr)%nat ->
  In WAIT_FOR_USER (visited tr w)
  /\ (ticks_to_idle_on_request (CurrentState w) <= 3)%nat.
Proof.
  intros Hw Hd Hn. split; [ | destruct (CurrentState w); cbn; lia].
  revert w Hw Hd Hn. induction tr as [ | [c env] tr IH]; intros w Hw Hd Hn.
  - exfalso. destruct (CurrentState w); cbn in Hn; try lia. now apply Hw.
  - rewrite visited_cons. rewrite ticks_cons in Hn.
    destruct (states_eqb (CurrentState (exec (dispatch c) env w)) WAIT_FOR_USER)
      eqn:Hidle.
    { apply states_eqb_eq in Hidle. left. exact Hidle. }
    assert (Hbusy : CurrentState (exec (dispatch c) env w) <> WAIT_FOR_USER).
    { intros E. apply states_eqb_eq in E. congruence. }
    right. apply IH; try assumption.
    + (* the flag survives *)
      destruct (is_intent c) eqn:Hi.
      * now apply (intent_while_busy c env w Hi Hw).
      * destruct c; try discriminate Hi.
        destruct (dispatch_FlightLoop env w) as [E _]. rewrite E in *.
        destruct w as [st d th rv]; cbn in Hd; subst d.
        destruct st; tick_cases; cbn [fst snd] in *.
        all: sensor_cases true env; cbn in *; congruence.
    + (* and fewer ticks are needed *)
      destruct (is_intent c) eqn:Hi.
      * destruct (intent_while_busy c env w Hi Hw) as (-> & _). exact Hn.
      * destruct c; try discriminate Hi.
        destruct (dispatch_FlightLoop env w) as [E _]. rewrite E in *.
        destruct w as [st d th rv]; cbn in Hd; subst d.
        destruct st; tick_cases; cbn [fst snd] in *.
        all: sensor_cases true env; cbn in *; try lia; try congruence.
Qed.

Lemma deactivation_latency_witness :
  let tr := [(tick, Sample.approach); (requestActivate, Sample.approach);
             (tick, Sample.approach); (tick, Sample.approach)] in
  visited tr (mkWorld START true false false)
  = [THROTTLE_DOWN; THROTTLE_DOWN; WAIT_FOR_IDLE_THROTTLE; WAIT_FOR_USER]
  /\ In WAIT_FOR_USER (visited tr (mkWorld START true false false)).
Proof.
  split; [reflexivity | ].
  apply (deactivation_latency
           [(tick, Sample.approach); (requestActivate, Sample.approach);
            (tick, Sample.approach); (tick, Sample.approach)]
           (mkWorld START true false false)).
  - discriminate.
  - reflexivity.
  - cbn. lia.
Defined.

(* ================================================================== *)
(** * The waiting states wait *)



(* ================================================================== *)
(** * The throttle-down hold over an activation cycle *)

Lemma throttle_calls_until_idle (tr : schedule) :
  forall w,
    completes_cycle tr w = true ->
    match CurrentState w with
    | WAIT_FOR_USER => True
    | START | THROTTLE_DOWN =>
        hold_calls ThrottleDownCmd (snd (run tr w))
        = if reaches_idle_throttle_wait tr w
          then [EvCommandBegin ThrottleDownCmd; EvCommandEnd ThrottleDownCmd]
          else []
    | WAIT_FOR_IDLE_THROTTLE =>
        hold_calls ThrottleDownCmd (snd (run tr w))
        = [EvCommandEnd ThrottleDownCmd]
    | _ =>
        hold_calls ThrottleDownCmd (snd (run tr w)) = []
        /\ reaches_idle_throttle_wait tr w = false
    end.
Proof.
  induction tr as [ | [c env] tr IH]; intros w Hc; [discriminate Hc | ].
  rewrite completes_cycle_cons in Hc.
  unfold reaches_idle_throttle_wait. rewrite run_cons, visited_cons.
  cbn [snd existsb]. rewrite hold_calls_app.
  fold (reaches_idle_throttle_wait tr (exec (dispatch c) env w)).
  specialize (IH (exec (dispatch c) env w)).
  destruct (is_intent c) eqn:Hi.
  - destruct (states_eqb (CurrentState w) WAIT_FOR_USER) eqn:Hw.
    + apply states_eqb_eq in Hw. now rewrite Hw.
    + assert (Hw' : CurrentState w <> WAIT_FOR_USER).
      { intros E. apply states_eqb_eq in E. congruence. }
      destruct (intent_while_busy c env w Hi Hw') as (Hst & _ & _ & _ & Hev).
      rewrite Hev, Hst in *. rewrite Hw in Hc. specialize (IH Hc).
      cbn [app].
      destruct (CurrentState w); cbn [states_eqb states_to_Z Z.eqb orb];
        exact IH.
  - destruct c; try discriminate Hi.
    destruct (dispatch_FlightLoop env w) as [E1 E2].
    rewrite E1, E2 in *. clear E1 E2.
    destruct w as [st d th rv]; destruct st; cbn [CurrentState]; [exact I | ..].
    all: tick_cases.
    all: sensor_cases d env.
    all: cbn [fst snd CurrentState states_eqb states_to_Z Z.eqb] in Hc, IH |- *.
    all: try (destruct tr; [ | discriminate Hc]; cbn; auto; fail).
    all: specialize (IH Hc); cbn; try exact IH.
    all: try (rewrite IH; reflexivity).
    all: destruct IH as [IH1 IH2]; rewrite ?IH1, ?IH2; reflexivity.
Qed.

(** X4: in every reachable world the throttle-down hold is active exactly
    when [CurrentState] is [WAIT_FOR_IDLE_THROTTLE].  Over an activation
    cycle the calls on the throttle-down command are one begin followed by
    one end if the cycle enters [WAIT_FOR_IDLE_THROTTLE], and none at all
    otherwise: the command is never ended without having been begun, and
    never left held when the cycle is over. *)
Theorem throttle_hold_per_cycle :
  (forall w, reachable w ->
     (throttle_down_held w = true
      <-> CurrentState w = WAIT_FOR_IDLE_THROTTLE))
  /\ (forall env0 tr w0,
        is_activation_cycle env0 tr w0 = true ->
        hold_calls ThrottleDownCmd (cycle_events env0 tr w0)
        = if reaches_idle_throttle_wait tr (exec Enable env0 w0)
          then [EvCommandBegin ThrottleDownCmd; EvCommandEnd ThrottleDownCmd]
          else []).
Proof.
  split.
  - intros w Hr. apply reachable_holds_match_state in Hr.
    destruct w as [st d th rv]; unfold holds_match_state in Hr;
      cbn [CurrentState throttle_down_held reverse_thrust_held] in *.
    apply andb_prop in Hr as [Hr _]. apply eqb_prop in Hr. rewrite Hr.
    apply states_eqb_eq.
  - intros env0 tr w0 Hcy. unfold is_activation_cycle in Hcy.
    apply andb_prop in Hcy as [Hcy Hc]. apply andb_prop in Hcy as [Hidle Hstart].
    apply states_eqb_eq in Hidle, Hstart.
    assert (Hcalls := throttle_calls_until_idle tr _ Hc). rewrite Hstart in Hcalls.
    destruct (Enable_effects env0 w0) as (Hn & _).
    assert (Hact : hold_calls ThrottleDownCmd (emitted Enable env0 w0) = []).
    { unfold hold_calls, count in *.
      induction (emitted Enable env0 w0) as [ | e l IHl]; [reflexivity | ].
      destruct e; cbn in Hn |- *; try discriminate Hn; auto. }
    unfold cycle_events. now rewrite hold_calls_app, Hact.
Qed.

Lemma throttle_hold_per_cycle_witness :
  is_activation_cycle Sample.approach (tl Sample.full_landing) initial = true
  /\ hold_calls ThrottleDownCmd
       (cycle_events Sample.approach (tl Sample.full_landing) initial)
     = [EvCommandBegin ThrottleDownCmd; EvCommandEnd ThrottleDownCmd].
Proof.
  split; [reflexivity | ].
  apply (proj2 throttle_hold_per_cycle Sample.approach (tl Sample.full_landing) initial).
  reflexivity.
Defined.

(* ================================================================== *)
(** * Reverse thrust only after touch down *)

Lemma run_app (tr1 tr2 : schedule) (w : world) :
  run (tr1 ++ tr2) w
  = (fst (run tr2 (fst (run tr1 w))),
     snd (run tr1 w) ++ snd (run tr2 (fst (run tr1 w)))).
Proof.
  revert w. induction tr1 as [ | [c env] tr1 IH]; intros w.
  - cbn. now destruct (run tr2 w).
  - cbn [app]. rewrite !run_cons, IH. cbn [fst snd]. now rewrite app_assoc.
Qed.

Lemma last_tick_app (tr : schedule) (c : callback) (env : sensors) :
  last_tick (tr ++ [(c, env)])
  = if is_intent c then last_tick tr else Some env.
Proof.
  induction tr as [ | [c' env'] tr IH].
  - cbn. now destruct (is_intent c).
  - cbn [app last_tick]. rewrite IH.
    destruct (is_intent c); [reflexivity | ]. reflexivity.
Qed.

(** The manager is in [APPLY_REVERSE] only right after a tick that read
    "all wheels on ground". *)
Lemma APPLY_REVERSE_after_touchdown (tr : schedule) :
  CurrentState (fst (run tr initial)) = APPLY_REVERSE ->
  exists env, last_tick tr = Some env /\ onground_all env = TRUE.
Proof.
  induction tr as [ | [c env] tr IH] using rev_ind; [discriminate | ].
  rewrite run_app, last_tick_app. cbn [fst]. rewrite run_cons. cbn [run fst].
  set (w := fst (run tr initial)) in *. intros H.
  destruct (is_intent c) eqn:Hi.
  - apply IH.
    destruct (states_eqb (CurrentState w) WAIT_FOR_USER) eqn:Hw.
    + apply states_eqb_eq in Hw.
      destruct (Enable_effects env w) as (_ & _ & _ & _ & Hst).
      destruct (dispatch_cases c env w)
        as [[-> _] | [[_ [E _]] | [[_ [E _]] | [_ [_ [E _]]]]]];
        try discriminate Hi; rewrite E in H.
      * destruct Hst as [Hst | [_ Hst]]; congruence.
      * destruct w as [st d th rv]; cbn in Hw; subst st. discriminate H.
      * congruence.
    + assert (Hw' : CurrentState w <> WAIT_FOR_USER).
      { intros E. apply states_eqb_eq in E. congruence. }
      destruct (intent_while_busy c env w Hi Hw') as (Hst & _). congruence.
  - destruct c; try discriminate Hi. exists env. split; [reflexivity | ].
    destruct (dispatch_FlightLoop env w) as [E _]. rewrite E in H.
    destruct w as [st d th rv]; destruct st; tick_cases; cbn [fst snd] in H.
    all: try destruct d.
    all: try destruct (throttle_ratio_all env > F32.of_int_0)%f32.
    all: try destruct (throttle_ratio_all env == F32.of_int_0)%f32.
    all: try destruct (indicated_airspeed2 env > MIN_SPEED_REVERSE_THRUST)%f32.
    all: try destruct (indicated_airspeed2 env <= MIN_SPEED_REVERSE_THRUST)%f32.
    all: cbn in H; try discriminate H.
    all: destruct (Z.eqb_spec (onground_all env) TRUE);
      [assumption | cbn in H; discriminate H].
Qed.

(** X16: in every run from start-up, a callback begins the reverse-thrust
    hold only if it is a tick that reads an airspeed above 60 kt and the
    tick before it read "all wheels on ground" as 1.  Reverse thrust is
    therefore never begun without that reading; the tick that begins it does
    not read the wheels again. *)
Theorem reverse_only_after_touchdown (tr : schedule) (c : callback) (env : sensors) :
  In (EvCommandBegin ReverseThrustCmd)
     (emitted (dispatch c) env (fst (run tr initial))) ->
  c = FlightLoop
  /\ (indicated_airspeed2 env > MIN_SPEED_REVERSE_THRUST)%f32 = true
  /\ (exists env', last_tick tr = Some env' /\ onground_all env' = TRUE)
  /\ ~ In (EvGetData AllWheelsOnGroundRef)
          (emitted (dispatch c) env (fst (run tr initial))).
Proof.
  intros Hin.
  assert (Hst : c = FlightLoop
                /\ CurrentState (fst (run tr initial)) = APPLY_REVERSE
                /\ (indicated_airspeed2 env > MIN_SPEED_REVERSE_THRUST)%f32 = true
                /\ ~ In (EvGetData AllWheelsOnGroundRef)
                        (emitted (dispatch c) env (fst (run tr initial)))).
  { set (w := fst (run tr initial)) in *.
    destruct (dispatch_cases c env w)
      as [[-> [_ E]] | [[_ [_ E]] | [[_ [_ E]] | [_ [_ [_ E]]]]]];
      rewrite E in *.
    - destruct w as [st d th rv]; destruct st; tick_cases; cbn [fst snd] in *.
      all: sensor_cases d env; cbn in Hin.
      all: repeat (destruct Hin as [Hin | Hin]; try discriminate Hin);
        try contradiction.
      all: repeat split.
      all: intros [H | [H | H]]; try discriminate H; contradiction.
    - exfalso. destruct (Enable_effects env w) as (Hn & _).
      unfold count in Hn.
      assert (Hf : In (EvCommandBegin ReverseThrustCmd)
                      (filter is_command_call (emitted Enable env w)))
        by (apply filter_In; auto).
      destruct (filter is_command_call (emitted Enable env w));
        [contradiction | discriminate Hn].
    - contradiction.
    - contradiction. }
  destruct Hst as (-> & Hs & Ha & Hno).
  repeat split; try assumption.
  now apply APPLY_REVERSE_after_touchdown.
Qed.

Lemma reverse_only_after_touchdown_witness :
  In (EvCommandBegin ReverseThrustCmd)
     (emitted (dispatch tick) Sample.rollout_80
              (fst (run (firstn 5 Sample.full_landing) initial)))
  /\ (exists env', last_tick (firstn 5 Sample.full_landing) = Some env'
                   /\ onground_all env' = TRUE).
Proof.
  split; [right; left; reflexivity | ].
  apply (reverse_only_after_touchdown (firstn 5 Sample.full_landing)
           tick Sample.rollout_80).
  right; left; reflexivity.
Defined.

(* ================================================================== *)
(** * What a refusal says *)

Lemma advisory_ext (r1 r2 : violation -> bool) :
  (forall v, r1 v = r2 v) -> advisory r1 = advisory r2.
Proof.
  intros H. unfold advisory; cbn [fold_right all_violations].
  now rewrite !H.
Qed.

Lemma speech_after_refusal (env : sensors) (d th rv : bool) :
  eligible env = false ->
  speech (emitted Enable env (mkWorld WAIT_FOR_USER d th rv))
  = if existsb (fun v => violation_reported v env) all_violations
    then [advisory (fun v => violation_reported v env)]
    else [].
Proof.
  intros He. unfold emitted. rewrite Enable_WAIT_FOR_USER, He. cbn [snd].
  rewrite Errors_text_advisory, advisory_nonempty.
  destruct (existsb _ all_violations); reflexivity.
Qed.

(** X9: the advisory of a refused activation can be read back: the labels
    found in the spoken text are exactly the labels whose test fired, and
    two refusals speak the same text if and only if the same tests fired. *)
Theorem refusal_text_round_trip (env1 env2 : sensors) (w1 w2 : world) :
  CurrentState w1 = WAIT_FOR_USER -> CurrentState w2 = WAIT_FOR_USER ->
  eligible env1 = false -> eligible env2 = false ->
  spoken_set (emitted Enable env1 w1)
  = filter (fun v => violation_reported v env1) all_violations
  /\ (speech (emitted Enable env1 w1) = speech (emitted Enable env2 w2)
      <-> forall v, violation_reported v env1 = violation_reported v env2).
Proof.
  destruct w1 as [st1 d1 th1 rv1], w2 as [st2 d2 th2 rv2];
    cbn [CurrentState]; intros -> -> He1 He2. split.
  - unfold spoken_set. apply filter_ext. intros v.
    now apply spoken_after_refusal.
  - rewrite !speech_after_refusal by assumption. split.
    + intros H v.
      destruct (existsb (fun v => violation_reported v env1) all_violations) eqn:X1,
               (existsb (fun v => violation_reported v env2) all_violations) eqn:X2;
        try discriminate H.
      * injection H as H.
        rewrite <- (occurs_advisory (fun v => violation_reported v env1) v).
        rewrite <- (occurs_advisory (fun v => violation_reported v env2) v).
        now rewrite H.
      * assert (Hin : In v all_violations) by (destruct v; cbn; auto).
        destruct (violation_reported v env1) eqn:R1.
        { exfalso. assert (T : existsb (fun v => violation_reported v env1)
                                       all_violations = true)
            by (apply existsb_exists; eauto). congruence. }
        destruct (violation_reported v env2) eqn:R2; [ | reflexivity].
        exfalso. assert (T : existsb (fun v => violation_reported v env2)
                                     all_violations = true)
          by (apply existsb_exists; eauto). congruence.
    + intros H.
      rewrite (advisory_ext _ _ H).
      replace (existsb (fun v => violation_reported v env1) all_violations)
        with (existsb (fun v => violation_reported v env2) all_violations);
        [reflexivity | ].
      cbn [existsb all_violations]. now rewrite !H.
Qed.

Lemma refusal_text_round_trip_witness :
  eligible everything_wrong = false
  /\ spoken_set (emitted Enable everything_wrong initial) = all_violations.
Proof.
  split; [reflexivity | ].
  apply (refusal_text_round_trip everything_wrong Sample.too_fast initial initial);
    reflexivity.
Defined.

(** X10: readings that arm the manager contain no NaN among the four that
    are tested.  A refusal is silent only if the airspeed, the flap angle or
    the altitude is a NaN; with three numbers there, a refusal always speaks
    one non-empty text. *)
Theorem silent_refusal_means_nan (env : sensors) (w : world) :
  CurrentState w = WAIT_FOR_USER ->
  (eligible env = true ->
   ordered_readings env = true /\ F32.is_nan (deploy_ratio_0 env) = false)
  /\ (eligible env = false ->
      speech (emitted Enable env w) = [] -> ordered_readings env = false)
  /\ (eligible env = false -> ordered_readings env = true ->
      exists text, speech (emitted Enable env w) = [text]
                   /\ text <> EmptyString).
Proof.
  destruct w as [st d th rv]; cbn [CurrentState]; intros ->.
  assert (Hspeak : eligible env = false -> ordered_readings env = true ->
                   existsb (fun v => violation_reported v env) all_violations = true).
  { intros He Ho.
    assert (Hex : exists v, predicate_holds v env = false).
    { destruct (predicate_holds AirspeedTooHigh env) eqn:P1; [ | eauto].
      destruct (predicate_holds FlapsTooLow env) eqn:P2; [ | eauto].
      destruct (predicate_holds GearNotDown env) eqn:P3; [ | eauto].
      destruct (predicate_holds AltitudeTooHigh env) eqn:P4; [ | eauto].
      exfalso. assert (T : eligible env = true).
      { apply eligible_iff. intros v; destruct v; assumption. }
      congruence. }
    destruct Hex as [v Hv]. apply existsb_exists. exists v. split.
    - destruct v; cbn; auto.
    - now rewrite (reported_iff_fails v env Ho), Hv. }
  split; [ | split].
  - intros He. assert (He' := proj1 (eligible_iff env) He).
    clear He. rename He' into He.
    assert (H1 := He AirspeedTooHigh). assert (H2 := He FlapsTooLow).
    assert (H3 := He GearNotDown). assert (H4 := He AltitudeTooHigh).
    cbn [predicate_holds] in *. unfold ordered_readings.
    destruct (indicated_airspeed2 env); try discriminate H1;
      destruct (flap1_deg_0 env); try discriminate H2;
      destruct (deploy_ratio_0 env); try discriminate H3;
      destruct (y_agl env); try discriminate H4; split; reflexivity.
  - intros He Hs. rewrite speech_after_refusal in Hs by assumption.
    destruct (ordered_readings env) eqn:Ho; [ | reflexivity].
    rewrite (Hspeak He eq_refl) in Hs. discriminate Hs.
  - intros He Ho. rewrite speech_after_refusal, (Hspeak He Ho) by assumption.
    eexists. split; [reflexivity | ].
    intros E. assert (L := advisory_nonempty (fun v => violation_reported v env)).
    rewrite (Hspeak He Ho), E in L. discriminate L.
Qed.

Lemma silent_refusal_means_nan_witness :
  eligible Sample.airspeed_nan = false
  /\ speech (emitted Enable Sample.airspeed_nan initial) = []
  /\ ordered_readings Sample.airspeed_nan = false.
Proof.
  split; [reflexivity | split; [reflexivity | ]].
  apply (silent_refusal_means_nan Sample.airspeed_nan initial); reflexivity.
Defined.

(** X11: whatever the readings, the text assembled in [Errors] is at most
    64 characters long, so with its terminator it fits the 256-byte buffer
    and none of the four [strcat_s] calls can overflow; every set of
    readings that fails all four tests reaches exactly 64, and such readings
    exist. *)
Theorem Errors_never_overflows (a f g h : F32.float) :
  (String.length (Errors_text a f g h) <= 64)%nat
  /\ (String.length (Errors_text a f g h) + 1 <= 256)%nat
  /\ ((a > MAX_AIRSPEED)%f32 = true -> (f < MIN_FLAP_ANGLE)%f32 = true ->
      (g != GEAR_DOWN_RATIO)%f32 = true -> (h > MAX_ALTITUDE)%f32 = true ->
      String.length (Errors_text a f g h) = 64%nat)
  /\ String.length
       (Errors_text (indicated_airspeed2 everything_wrong)
                    (flap1_deg_0 everything_wrong)
                    (deploy_ratio_0 everything_wrong)
                    (y_agl everything_wrong)) = 64%nat.
Proof.
  unfold Errors_text, strcat_s.
  destruct (a > MAX_AIRSPEED)%f32, (f < MIN_FLAP_ANGLE)%f32,
           (g != GEAR_DOWN_RATIO)%f32, (h > MAX_ALTITUDE)%f32;
    cbn; repeat split; try lia; intros; try discriminate; reflexivity.
Qed.

Lemma Errors_never_overflows_witness :
  (indicated_airspeed2 everything_wrong > MAX_AIRSPEED)%f32 = true
  /\ (flap1_deg_0 everything_wrong < MIN_FLAP_ANGLE)%f32 = true
  /\ (deploy_ratio_0 everything_wrong != GEAR_DOWN_RATIO)%f32 = true
  /\ (y_agl everything_wrong > MAX_ALTITUDE)%f32 = true
  /\ String.length
       (Errors_text (indicated_airspeed2 everything_wrong)
                    (flap1_deg_0 everything_wrong)
                    (deploy_ratio_0 everything_wrong)
                    (y_agl everything_wrong)) = 64%nat.
Proof.
  repeat (split; [reflexivity | ]).
  apply (proj1 (proj2 (proj2
           (Errors_never_overflows (indicated_airspeed2 everything_wrong)
                                   (flap1_deg_0 everything_wrong)
                                   (deploy_ratio_0 everything_wrong)
                                   (y_agl everything_wrong)))));
    reflexivity.
Defined.

(* ================================================================== *)
(** * The two ways to [Enable] *)

Lemma EnableCmdHandler_other_phase (inPhase : Z) (env : sensors) (w : world) :
  inPhase <> 0%Z -> EnableCmdHandler inPhase env w = (0%Z, w, []).
Proof.
  intros H. unfold EnableCmdHandler, bind, ret.
  apply Z.eqb_neq in H. now rewrite H.
Qed.

(** X12: the command handler always returns 0 and calls [Enable] on phase 0
    only, so a button that is pressed, held and released activates once: the
    run of a press followed by any later phases of the command is the one
    [Enable] of the press.  The enable item of the menu does exactly what
    the press does, and a menu item other than the two known ones does
    nothing. *)
Theorem entry_points (env0 : sensors) (w : world) :
  (forall inPhase env w', fst (fst (EnableCmdHandler inPhase env w')) = 0%Z)
  /\ (forall rest : list (Z * sensors),
        forallb (fun pe => negb (fst pe =? 0)%Z) rest = true ->
        run ((EnableCommand 0, env0)
               :: map (fun pe => (EnableCommand (fst pe), snd pe)) rest) w
        = (exec Enable env0 w, emitted Enable env0 w))
  /\ dispatch (MenuChoice MENU_ITEM_ID_ENABLE) env0 w
     = dispatch (EnableCommand 0) env0 w
  /\ (forall inItemRef,
        inItemRef <> MENU_ITEM_ID_ENABLE -> inItemRef <> MENU_ITEM_ID_STOP ->
        MenuHandlerCallback inItemRef env0 w = (tt, w, [])).
Proof.
  split; [ | split; [ | split]].
  - intros inPhase env w'. unfold EnableCmdHandler, bind, ret.
    destruct (inPhase =? 0)%Z.
    + destruct (Enable env w') as [[a w1] l1]. reflexivity.
    + reflexivity.
  - intros rest Hrest. rewrite run_cons.
    assert (Hpress : exec (dispatch (EnableCommand 0)) env0 w = exec Enable env0 w
                     /\ emitted (dispatch (EnableCommand 0)) env0 w
                        = emitted Enable env0 w).
    { destruct (dispatch_cases (EnableCommand 0) env0 w)
        as [[E _] | [[_ H] | [[E _] | [_ [E _]]]]]; try discriminate E.
      exact H. }
    destruct Hpress as [-> ->].
    assert (Hrun : forall w', run (map (fun pe => (EnableCommand (fst pe), snd pe)) rest) w'
                              = (w', [])).
    { induction rest as [ | [p e] rest IH]; intros w'; [reflexivity | ].
      cbn [forallb fst] in Hrest. apply andb_prop in Hrest as [Hp Hrest].
      apply negb_true_iff, Z.eqb_neq in Hp.
      cbn [map fst snd]. rewrite run_cons.
      unfold exec, emitted. cbn [dispatch]. unfold bind at 1 2 3.
      rewrite (EnableCmdHandler_other_phase p e w' Hp). cbn.
      now rewrite (IH Hrest). }
    rewrite Hrun. cbn [fst snd]. now rewrite app_nil_r.
  - cbn [dispatch]. unfold MenuHandlerCallback, EnableCmdHandler, bind, ret.
    cbn [Z.eqb MENU_ITEM_ID_ENABLE Pos.eqb].
    destruct (Enable env0 w) as [[[] w1] l1]. now rewrite !app_nil_r.
  - intros inItemRef H1 H2. unfold MenuHandlerCallback.
    apply Z.eqb_neq in H1, H2. now rewrite H1, H2.
Qed.

Lemma entry_points_witness :
  run ((EnableCommand 0, Sample.approach)
         :: map (fun pe => (EnableCommand (fst pe), snd pe))
                [(1%Z, Sample.too_fast); (1%Z, Sample.too_fast); (2%Z, Sample.approach)])
      initial
  = (mkWorld START false false false,
     [EvGetData IndicatedAirSpeedRef; EvGetData FlapsAngleRef;
      EvGetData GearDeployRatioRef; EvGetData AltitudeAboveGroundRef]).
Proof.
  apply (proj1 (proj2 (entry_points Sample.approach initial))
           [(1%Z, Sample.too_fast); (1%Z, Sample.too_fast); (2%Z, Sample.approach)]).
  reflexivity.
Defined.

(* ================================================================== *)
(** * Start-up *)

(** Go through the eight lookups of a simulator given by its two tables, in
    the order of the source; [missing] closes the branch of a lookup that
    fails, the goal that is left is the one where all succeed. *)
Ltac each_lookup fc fd missing :=
  vm_compute;
  destruct (fc "sim/engines/thrust_reverse_hold"%string);
    [ | missing ];
  destruct (fc "sim/engines/throttle_down"%string);
    [ | missing ];
  destruct (fd "sim/cockpit2/engine/actuators/throttle_ratio_all"%string);
    [ | missing ];
  destruct (fd "sim/flightmodel/position/indicated_airspeed2"%string);
    [ | missing ];
  destruct (fd "sim/flightmodel/failures/onground_all"%string);
    [ | missing ];
  destruct (fd "sim/flightmodel2/wing/flap1_deg"%string);
    [ | missing ];
  destruct (fd "sim/flightmodel2/gear/deploy_ratio"%string);
    [ | missing ];
  destruct (fd "sim/flightmodel2/position/y_agl"%string);
    [ | missing ];
  vm_compute.

(** The texts written by [strcpy_s] and [sprintf_s] fit their buffers. *)
Example start_texts_fit :
  forallb (fun x => String.length (snd x) <? 256)%nat lookups = true
  /\ (String.length PLUGIN_NAME < 256)%nat
  /\ (String.length CmdName < 100)%nat
  /\ (String.length CmdDesc < 100)%nat.
Proof. repeat split; cbn; lia. Qed.

(** X14: [XPluginStart] returns [TRUE] if and only if the simulator knows
    both commands and all six data references.  It has then bound all eight
    handles, created the enable command and registered its handler, set
    [CurrentState] to [WAIT_FOR_USER], and registered the flight loop at
    0.25 s as its last call. *)
Theorem XPluginStart_success (sim : simulator) :
  (fst (XPluginStart sim) = TRUE <-> forallb (known sim) lookups = true)
  /\ (forallb (known sim) lookups = true ->
      (forall c, command_ref (snd (XPluginStart sim)) c <> None)
      /\ (forall r, data_ref (snd (XPluginStart sim)) r <> None)
      /\ EnableCmd_created (snd (XPluginStart sim)) = true
      /\ start_CurrentState (snd (XPluginStart sim)) = WAIT_FOR_USER
      /\ outDesc (snd (XPluginStart sim))
         = "Handles the throttle and reverse thrust on landing for VR users"%string
      /\ host_calls (snd (XPluginStart sim))
         = menu_calls ++ lookups_tried sim lookups
           ++ [CallCreateCommand CmdName CmdDesc;
               CallRegisterCommandHandler 1;
               CallRegisterFlightLoopCallback STATE_MACHINE_EXECUTION_INTERVAL]).
Proof.
  destruct sim as [fc fd].
  each_lookup fc fd ltac:(vm_compute; split; [split; discriminate | discriminate]).
  split; [split; reflexivity | ]. intros _.
  repeat split; try discriminate.
  - intros c; destruct c; discriminate.
  - intros r; destruct r; discriminate.
Qed.

Lemma XPluginStart_success_witness :
  forallb (known (simulator_without [])) lookups = true
  /\ fst (XPluginStart (simulator_without [])) = TRUE.
Proof.
  split; [reflexivity | ].
  apply (proj1 (XPluginStart_success (simulator_without []))). reflexivity.
Defined.

(** X15: if a command or a data reference is missing, [XPluginStart]
    returns [FALSE] with the message of the first missing one, in the order
    of the source, in [outDesc]; it stops looking at that one; it has built
    the menu before looking, but it has neither created the enable command
    nor registered the command handler or the flight loop, so [StateMachine]
    is never called with a [NULL] handle.  The name and the signature are
    written in every case. *)
Theorem XPluginStart_failure (sim : simulator) :
  forallb (known sim) lookups = false ->
  fst (XPluginStart sim) = FALSE
  /\ (exists x, find (fun x => negb (known sim x)) lookups = Some x
                /\ outDesc (snd (XPluginStart sim)) = snd x)
  /\ host_calls (snd (XPluginStart sim)) = menu_calls ++ lookups_tried sim lookups
  /\ filter is_registration (host_calls (snd (XPluginStart sim))) = []
  /\ EnableCmd_created (snd (XPluginStart sim)) = false
  /\ outName (snd (XPluginStart sim)) = PLUGIN_NAME
  /\ outSig (snd (XPluginStart sim))
     = "britishideas.assistants.landingthrottlemanager"%string.
Proof.
  destruct sim as [fc fd].
  each_lookup fc fd ltac:(vm_compute; intros _; repeat split; eexists; split; reflexivity).
  discriminate.
Qed.

Lemma XPluginStart_failure_witness :
  let sim := simulator_without ["sim/flightmodel2/wing/flap1_deg";
                                "sim/flightmodel2/position/y_agl"]%string in
  forallb (known sim) lookups = false
  /\ fst (XPluginStart sim) = FALSE
  /\ outDesc (snd (XPluginStart sim)) = "Failed to find flaps angle data"%string.
Proof.
  split; [reflexivity | split; [ | reflexivity]].
  apply (XPluginStart_failure
           (simulator_without ["sim/flightmodel2/wing/flap1_deg";
                               "sim/flightmodel2/position/y_agl"]%string)).
  reflexivity.
Defined.
